(** * nuxt-directus composables: a shallow embedding

    The repository wraps the Directus SDK for Nuxt: [useDirectusItems]
    (CRUD wrappers), [useDirectusAuth] (login, logout, refresh, password
    reset, invitation) and a cookie-based variant of [useDirectusAuth]
    (signIn, signOut, fetchUser).

    Every function is an [async] function that talks to the SDK, writes to
    the console, and assigns reactive cells.  They are embedded as
    computations of a state-and-exception monad [Js] over a [World] that
    holds the reactive cells and the trace of observable events; the SDK and
    the other external functions are parameters. *)

From Stdlib Require Import List String ZArith Bool Lia.
Import ListNotations.
Open Scope string_scope.
Open Scope list_scope.

(** ** JavaScript values *)

(** Numbers are restricted to integers: the code only passes them on. *)
#[warnings="-register-all"]
Inductive JsVal : Type :=
| JUndefined
| JNull
| JBool (b : bool)
| JNum (n : Z)
| JStr (s : string)
| JArr (elems : list JsVal)
| JObj (fields : list (string * JsVal)).

(** ToBoolean. *)
Definition truthy (v : JsVal) : bool :=
  match v with
  | JUndefined | JNull => false
  | JBool b => b
  | JNum n => negb (Z.eqb n 0)
  | JStr s => negb (String.eqb s EmptyString)
  | JArr _ | JObj _ => true
  end.

(** [a || b] *)
Definition js_or (a b : JsVal) : JsVal := if truthy a then a else b.

(** [a ?? b] *)
Definition js_nullish (a b : JsVal) : JsVal :=
  match a with
  | JUndefined | JNull => b
  | _ => a
  end.

Fixpoint lookup_field (k : string) (fields : list (string * JsVal)) : JsVal :=
  match fields with
  | [] => JUndefined
  | (k', v) :: rest => if String.eqb k k' then v else lookup_field k rest
  end.

(** [v.k], for a [v] that is neither [null] nor [undefined] (every property
    access of the source is on a value already tested for truthiness). *)
Definition prop (v : JsVal) (k : string) : JsVal :=
  match v with
  | JObj fields => lookup_field k fields
  | _ => JUndefined
  end.

(** ** Option types of the wrappers ([../types])

    [options?: T] is [option T]; an absent field is [JUndefined]. *)

Record DirectusReqOptions := {
  ro_useStaticToken : JsVal
}.

Record DirectusReqItemOptions := {
  rio_useStaticToken : JsVal;
  rio_query : JsVal
}.

Record AsyncDataDirectusReqItem := {
  ad_key : JsVal;
  ad_query : JsVal;
  ad_params : JsVal;
  ad_useStaticToken : JsVal
}.

Record LoginOptions := {
  lo_otp : JsVal;
  lo_mode : JsVal
}.

(** [options?.field] *)
Definition opt_chain {T : Type} (options : option T) (field : T -> JsVal) : JsVal :=
  match options with
  | None => JUndefined
  | Some o => field o
  end.

Notation "o ?. f" := (opt_chain o f) (at level 2, f at level 0, left associativity).

(** ** The SDK *)

(** Request descriptions built by the SDK's constructors. *)
Inductive RestCommand : Type :=
| sdkCreateItem (collection item query : JsVal)
| sdkCreateItems (collection items query : JsVal)
| sdkReadItem (collection id query : JsVal)
| sdkReadItems (collection query : JsVal)
| sdkReadSingleton (collection query : JsVal)
| sdkUpdateItem (collection id item query : JsVal)
| sdkUpdateItems (collection ids item query : JsVal)
| sdkUpdateSingleton (collection item query : JsVal)
| sdkDeleteItem (collection id : JsVal)
| sdkDeleteItems (collection idOrQuery : JsVal)
| sdkPasswordRequest (email reset_url : JsVal)
| sdkPasswordReset (token password : JsVal)
| sdkInviteUser (email role invite_url : JsVal)
| sdkReadMe
| withToken (token : JsVal) (cmd : RestCommand).

(** The client an SDK method is called on: [useDirectusRest()],
    [useDirectusRest({ useStaticToken })], or the [directus] client of the
    cookie-based composable (authentication + rest). *)
Inductive Client : Type :=
| useDirectusRest (useStaticToken : option JsVal)
| directus.

Inductive SdkCall : Type :=
| Request (cmd : RestCommand)
| Login (identifier password : string) (params : option LoginOptions)
| Refresh
| Logout.

Record AuthenticationData := {
  access_token : JsVal;
  refresh_token : JsVal;
  expires_at : JsVal;
  expires : JsVal
}.

(** ** Observable events and the world *)

Inductive CookieName := AccessTokenCookie | RefreshTokenCookie.

Inductive Event : Type :=
| ConsoleError (args : list JsVal)
| SdkCalled (c : Client) (call : SdkCall)
| CookieSet (name : CookieName) (maxAge value : JsVal).

(** [user], the two cookies: the framework's cells for the session.
    [cells]: reactive refs owned by the caller ([Ref<Collection>], ...).
    [trace]: the events so far, most recent first. *)
Record World := {
  user : JsVal;
  accessTokenCookie : JsVal;
  refreshTokenCookie : JsVal;
  cells : list JsVal;
  trace : list Event
}.

Definition emit (e : Event) (w : World) : World :=
  {| user := user w;
     accessTokenCookie := accessTokenCookie w;
     refreshTokenCookie := refreshTokenCookie w;
     cells := cells w;
     trace := e :: trace w |}.

(** An SDK method either resolves or rejects; the answer may depend on
    everything that happened before. *)
Inductive Result (A : Type) : Type :=
| Returned (a : A)
| Thrown (error : JsVal).
Arguments Returned {A} a.
Arguments Thrown {A} error.

Record Sdk := {
  sdk_request : list Event -> Client -> RestCommand -> Result JsVal;
  sdk_login : list Event -> Client -> string -> string -> option LoginOptions ->
              Result AuthenticationData;
  sdk_refresh : list Event -> Client -> Result AuthenticationData;
  sdk_logout : list Event -> Client -> Result unit
}.

(** ** The monad of async functions *)

Definition Js (A : Type) : Type := World -> Result A * World.

Definition ret {A} (a : A) : Js A := fun w => (Returned a, w).

Definition throw {A} (error : JsVal) : Js A := fun w => (Thrown error, w).

Definition bind {A B} (m : Js A) (k : A -> Js B) : Js B :=
  fun w =>
    match m w with
    | (Returned a, w') => k a w'
    | (Thrown e, w') => (Thrown e, w')
    end.

(** [try { body } catch (error) { handler }] *)
Definition try_catch {A} (body : Js A) (handler : JsVal -> Js A) : Js A :=
  fun w =>
    match body w with
    | (Returned a, w') => (Returned a, w')
    | (Thrown e, w') => handler e w'
    end.

Notation "x <- m ;; k" := (bind m (fun x => k))
  (at level 61, m at next level, right associativity).
Notation "m ;; k" := (bind m (fun _ => k))
  (at level 61, right associativity).

(** [console.error(...args)] *)
Definition console_error (args : list JsVal) : Js unit :=
  fun w => (Returned tt, emit (ConsoleError args) w).

(** [user.value = value] *)
Definition set_user (value : JsVal) : Js unit :=
  fun w => (Returned tt,
            {| user := value;
               accessTokenCookie := accessTokenCookie w;
               refreshTokenCookie := refreshTokenCookie w;
               cells := cells w;
               trace := trace w |}).

(** A reactive argument: a plain value or a ref of the caller. *)
Inductive MaybeRef : Type :=
| Plain (v : JsVal)
| Cell (n : nat).

(** [toRef(x).value] and [unref(x)] *)
Definition ref_value (x : MaybeRef) (w : World) : JsVal :=
  match x with
  | Plain v => v
  | Cell n => nth n (cells w) JUndefined
  end.

Section WithSdk.

Variable sdk : Sdk.

(** Resolving a client ([useDirectusRest], [useDirectus]) is taken to
    succeed; an SDK method is recorded in the trace and answered by [sdk]. *)

(** [await client.request(cmd)] *)
Definition request (c : Client) (cmd : RestCommand) : Js JsVal :=
  fun w => (sdk_request sdk (trace w) c cmd, emit (SdkCalled c (Request cmd)) w).

(** [await client.login(identifier, password, params)] *)
Definition client_login (c : Client) (identifier password : string)
           (params : option LoginOptions) : Js AuthenticationData :=
  fun w => (sdk_login sdk (trace w) c identifier password params,
            emit (SdkCalled c (Login identifier password params)) w).

(** [await client.refresh()] *)
Definition client_refresh (c : Client) : Js AuthenticationData :=
  fun w => (sdk_refresh sdk (trace w) c, emit (SdkCalled c Refresh) w).

(** [await client.logout()] *)
Definition client_logout (c : Client) : Js unit :=
  fun w => (sdk_logout sdk (trace w) c, emit (SdkCalled c Logout) w).

End WithSdk.

(** ** The framework's async-data primitive

    [useAsyncData(key, handler, options)] belongs to Nuxt: it decides when
    the handler runs and where its error goes.  A read wrapper is embedded as
    the call it makes: the key, the handler and the options it hands over. *)
Inductive AsyncDataCall : Type :=
| useAsyncData (key : JsVal) (handler : Js JsVal) (options : JsVal).

Definition call_key (c : AsyncDataCall) : JsVal :=
  match c with useAsyncData k _ _ => k end.

Definition call_handler (c : AsyncDataCall) : Js JsVal :=
  match c with useAsyncData _ h _ => h end.

(** [options?.toString()] on an options object literal: the method is
    inherited from [Object.prototype]. *)
Definition opt_toString {T : Type} (options : option T) : JsVal :=
  match options with
  | None => JUndefined
  | Some _ => JStr "[object Object]"
  end.

(** ** runtime/composables/useDirectusItems.ts *)

Module UseDirectusItems.
Section Composable.

Variable sdk : Sdk.
(** [hash] of the ohash package. *)
Variable hash : JsVal -> string.
(** The argument of [useDirectusItems(useStaticToken)]. *)
Variable useStaticToken : JsVal.

Definition client (useStaticToken : JsVal) : Client :=
  useDirectusRest (Some useStaticToken).

Definition createItem (collection item : JsVal)
           (options : option DirectusReqItemOptions) : Js JsVal :=
  try_catch
    (request sdk (client (js_or (options ?. rio_useStaticToken) useStaticToken))
             (sdkCreateItem collection item (options ?. rio_query)))
    (fun error =>
       if truthy error && truthy (prop error "message")
       then console_error [JStr "Couldn't create item"; prop error "errors"] ;;
            ret JUndefined
       else ret JUndefined).

Definition createItems (collection items : JsVal)
           (options : option DirectusReqItemOptions) : Js JsVal :=
  try_catch
    (request sdk (client (js_or (options ?. rio_useStaticToken) useStaticToken))
             (sdkCreateItems collection items (options ?. rio_query)))
    (fun error =>
       if truthy error && truthy (prop error "message")
       then console_error [JStr "Couldn't create items"; prop error "errors"] ;;
            ret JUndefined
       else console_error [error] ;; ret JUndefined).

Definition readItem (collection id : MaybeRef)
           (options : option AsyncDataDirectusReqItem) : Js AsyncDataCall :=
  fun w =>
    let collectionName := ref_value collection in
    let itemId := ref_value id in
    let key :=
      JStr (hash (JArr [collectionName w; itemId w;
                        options ?. ad_query; options ?. ad_params])) in
    (Returned
       (useAsyncData
          (js_nullish (options ?. ad_key) key)
          (fun w' =>
             request sdk (client (js_or (options ?. ad_useStaticToken) useStaticToken))
                     (sdkReadItem (collectionName w') (itemId w') (options ?. ad_query)) w')
          (options ?. ad_params)),
     w).

Definition readItems (collection : MaybeRef)
           (options : option AsyncDataDirectusReqItem) : Js AsyncDataCall :=
  fun w =>
    let collectionName := ref_value collection in
    let key := JStr (hash (JArr [collectionName w; opt_toString options])) in
    (Returned
       (useAsyncData
          (js_nullish (options ?. ad_key) key)
          (fun w' =>
             request sdk (client (js_or (options ?. ad_useStaticToken) useStaticToken))
                     (sdkReadItems (collectionName w') (options ?. ad_query)) w')
          (options ?. ad_params)),
     w).

Definition readSingleton (collection : MaybeRef)
           (options : option AsyncDataDirectusReqItem) : Js AsyncDataCall :=
  fun w =>
    let collectionName := ref_value collection in
    let key :=
      JStr (hash (JArr [collectionName w; options ?. ad_query; options ?. ad_params])) in
    (Returned
       (useAsyncData
          (js_nullish (options ?. ad_key) key)
          (fun w' =>
             request sdk (client (js_or (options ?. ad_useStaticToken) useStaticToken))
                     (sdkReadSingleton (collectionName w') (options ?. ad_query)) w')
          (options ?. ad_params)),
     w).

Definition updateItem (collection id item : JsVal)
           (options : option DirectusReqItemOptions) : Js JsVal :=
  try_catch
    (request sdk (client (js_or (options ?. rio_useStaticToken) useStaticToken))
             (sdkUpdateItem collection id item (options ?. rio_query)))
    (fun error =>
       if truthy error && truthy (prop error "message")
       then console_error [JStr "Couldn't update item"; prop error "errors"] ;;
            ret JUndefined
       else console_error [error] ;; ret JUndefined).

Definition updateItems (collection ids item : JsVal)
           (options : option DirectusReqItemOptions) : Js JsVal :=
  try_catch
    (request sdk (client (js_or (options ?. rio_useStaticToken) useStaticToken))
             (sdkUpdateItems collection ids item (options ?. rio_query)))
    (fun error =>
       if truthy error && truthy (prop error "message")
       then console_error [JStr "Couldn't update items"; prop error "errors"] ;;
            ret JUndefined
       else console_error [error] ;; ret JUndefined).

Definition updateSingleton (collection item : JsVal)
           (options : option DirectusReqItemOptions) : Js JsVal :=
  try_catch
    (request sdk (client (js_or (options ?. rio_useStaticToken) useStaticToken))
             (sdkUpdateSingleton collection item (options ?. rio_query)))
    (fun error =>
       if truthy error && truthy (prop error "message")
       then console_error [JStr "Couldn't update singleton"; prop error "errors"] ;;
            ret JUndefined
       else console_error [error] ;; ret JUndefined).

Definition deleteItem (collection id : JsVal)
           (options : option DirectusReqOptions) : Js JsVal :=
  try_catch
    (request sdk (client (js_or (options ?. ro_useStaticToken) useStaticToken))
             (sdkDeleteItem collection id))
    (fun error =>
       if truthy error && truthy (prop error "message")
       then console_error [JStr "Couldn't delete item"; prop error "errors"] ;;
            ret JUndefined
       else console_error [error] ;; ret JUndefined).

Definition deleteItems (collection idOrQuery : JsVal)
           (options : option DirectusReqOptions) : Js JsVal :=
  try_catch
    (request sdk (client (js_or (options ?. ro_useStaticToken) useStaticToken))
             (sdkDeleteItems collection idOrQuery))
    (fun error =>
       if truthy error && truthy (prop error "message")
       then console_error [JStr "Couldn't delete items"; prop error "errors"] ;;
            ret JUndefined
       else console_error [error] ;; ret JUndefined).

End Composable.
End UseDirectusItems.

(** ** runtime/composables/useDirectusAuth.ts *)

Record DirectusPasswordRequest := {
  pr_email : JsVal;
  pr_reset_url : JsVal;
  pr_useStaticToken : JsVal
}.

Record DirectusPasswordReset := {
  ps_token : JsVal;
  ps_password : JsVal;
  ps_useStaticToken : JsVal
}.

Record DirectusInviteUser := {
  iu_email : JsVal;
  iu_role : JsVal;
  iu_invite_url : JsVal;
  iu_useStaticToken : JsVal
}.

(** [defu(options, defaultOptions)] of the defu package, at [LoginOptions]:
    a property of [options] that is [null] or [undefined] takes the
    default. *)
Definition defu (options : option LoginOptions) (defaultOptions : LoginOptions)
  : LoginOptions :=
  {| lo_otp := js_nullish (options ?. lo_otp) (lo_otp defaultOptions);
     lo_mode := js_nullish (options ?. lo_mode) (lo_mode defaultOptions) |}.

Module UseDirectusAuth.
Section Composable.

Variable sdk : Sdk.
(** [useRuntimeConfig().public.directus.authConfig.useNuxtCookies] *)
Variable useNuxtCookies : JsVal.
(** [readMe] and [setUser] of [useDirectusUser()], a composable that is
    not part of these sources. *)
Variable readMe : JsVal -> Js JsVal.
Variable setUser : JsVal -> Js unit.

(** The parameter defaults to [false]. *)
Definition client (useStaticToken : JsVal) : Client :=
  useDirectusRest
    (Some (match useStaticToken with
           | JUndefined => JBool false
           | _ => useStaticToken
           end)).

Definition login (identifier password : string) (options : option LoginOptions)
  : Js JsVal :=
  try_catch
    (let defaultOptions :=
       {| lo_otp := JUndefined;
          lo_mode := if truthy useNuxtCookies then JStr "json" else JStr "cookie" |} in
     let params := defu options defaultOptions in
     authResponse <- client_login sdk (client JUndefined) identifier password (Some params) ;;
     userData <- readMe (JObj [("useStaticToken", JBool false)]) ;;
     setUser userData ;;
     ret (JObj [("access_token", access_token authResponse);
                ("refresh_token", refresh_token authResponse);
                ("expires_at", expires_at authResponse);
                ("expires", expires authResponse)]))
    (fun error =>
       if truthy error && truthy (prop error "message")
       then console_error [JStr "Couldn't login user"; prop error "errors"] ;;
            ret JUndefined
       else console_error [error] ;; ret JUndefined).

Definition refreshTokens : Js JsVal :=
  try_catch
    (authResponse <- client_refresh sdk (client JUndefined) ;;
     userData <- readMe (JObj [("useStaticToken", JBool false)]) ;;
     setUser userData ;;
     ret (JObj [("access_token", access_token authResponse);
                ("refresh_token", refresh_token authResponse);
                ("expires_at", expires_at authResponse);
                ("expires", expires authResponse)]))
    (fun error =>
       if truthy error && truthy (prop error "message")
       then console_error [JStr "Couldn't refresh tokens"; prop error "errors"] ;;
            ret JUndefined
       else console_error [error] ;; ret JUndefined).

Definition logout : Js JsVal :=
  try_catch
    (client_logout sdk (client JUndefined) ;;
     set_user JUndefined ;;
     set_user JUndefined ;;
     ret JUndefined)
    (fun error =>
       if truthy error && truthy (prop error "message")
       then console_error [JStr "Couldn't logut user"; prop error "errors"] ;;
            ret JUndefined
       else console_error [error] ;; ret JUndefined).

Definition passwordRequest (options : DirectusPasswordRequest) : Js JsVal :=
  try_catch
    (request sdk (client (pr_useStaticToken options))
             (sdkPasswordRequest (pr_email options) (pr_reset_url options)) ;;
     ret JUndefined)
    (fun error =>
       if truthy error && truthy (prop error "message")
       then console_error [JStr "Couldn't request password reset"; prop error "errors"] ;;
            ret JUndefined
       else console_error [error] ;; ret JUndefined).

Definition passwordReset (options : DirectusPasswordReset) : Js JsVal :=
  try_catch
    (request sdk (client (ps_useStaticToken options))
             (sdkPasswordReset (ps_token options) (ps_password options)) ;;
     ret JUndefined)
    (fun error =>
       if truthy error && truthy (prop error "message")
       then console_error [JStr "Couldn't reset password"; prop error "errors"] ;;
            ret JUndefined
       else console_error [error] ;; ret JUndefined).

Definition inviteUser (options : DirectusInviteUser) : Js JsVal :=
  try_catch
    (request sdk (client (iu_useStaticToken options))
             (sdkInviteUser (iu_email options) (iu_role options) (iu_invite_url options)) ;;
     ret JUndefined)
    (fun error =>
       if truthy error && truthy (prop error "message")
       then console_error [JStr "Couldn't invite user"; prop error "errors"] ;;
            ret JUndefined
       else console_error [error] ;; ret JUndefined).

End Composable.
End UseDirectusAuth.

(** ** The cookie-based [useDirectusAuth] (the unnamed source file) *)

(** [useDirectusCookie()] is not part of these sources.  [accessToken(maxAge)]
    and [refreshToken(maxAge)] are taken to return the ref of the cookie of
    that name, as Nuxt's [useCookie] does; an assignment to its [.value] is an
    event and updates the cell. *)
Definition cookie_value (name : CookieName) : Js JsVal :=
  fun w =>
    (Returned (match name with
               | AccessTokenCookie => accessTokenCookie w
               | RefreshTokenCookie => refreshTokenCookie w
               end), w).

Definition set_cookie (name : CookieName) (maxAge value : JsVal) : Js unit :=
  fun w =>
    (Returned tt,
     {| user := user w;
        accessTokenCookie :=
          match name with AccessTokenCookie => value | _ => accessTokenCookie w end;
        refreshTokenCookie :=
          match name with RefreshTokenCookie => value | _ => refreshTokenCookie w end;
        cells := cells w;
        trace := CookieSet name maxAge value :: trace w |}).

(** [v !== null] *)
Definition not_null (v : JsVal) : bool :=
  match v with
  | JNull => false
  | _ => true
  end.

Module UseDirectusAuthCookie.
Section Composable.

Variable sdk : Sdk.

Definition setUser (value : JsVal) : Js JsVal :=
  set_user value ;; ret JUndefined.

(** Returns the [user] ref; the embedding returns its value. *)
Definition fetchUser : Js JsVal :=
  token <- cookie_value AccessTokenCookie ;;
  (if truthy token
   then
     try_catch
       (res <- request sdk (useDirectusRest None) sdkReadMe ;;
        setUser res)
       (fun error =>
          if truthy error && truthy (prop error "message")
          then console_error [JStr "Couldn't fetch user"; prop error "errors"] ;;
               throw (prop error "errors")
          else console_error [error] ;; throw error)
   else ret JUndefined) ;;
  fun w => (Returned (user w), w).

Definition signIn (identifier password : string) : Js JsVal :=
  try_catch
    (authResponse <- client_login sdk directus identifier password None ;;
     (if not_null (expires authResponse)
      then set_cookie RefreshTokenCookie (expires authResponse)
                      (refresh_token authResponse) ;;
           set_cookie AccessTokenCookie (expires authResponse)
                      (access_token authResponse)
      else ret tt) ;;
     res <- request sdk directus (withToken (access_token authResponse) sdkReadMe) ;;
     setUser res ;;
     ret (JObj [("accessToken", access_token authResponse);
                ("refreshToken", refresh_token authResponse);
                ("expiresAt", expires_at authResponse);
                ("expires", expires authResponse)]))
    (fun error =>
       if truthy error && truthy (prop error "message")
       then console_error [JStr "Couldn't login user"; prop error "errors"] ;;
            throw (prop error "errors")
       else console_error [error] ;; throw error).

Definition refreshTokens : Js JsVal :=
  try_catch
    (authResponse <- client_refresh sdk directus ;;
     (if not_null (expires authResponse)
      then set_cookie RefreshTokenCookie (expires authResponse)
                      (refresh_token authResponse) ;;
           set_cookie AccessTokenCookie (expires authResponse)
                      (access_token authResponse)
      else ret tt) ;;
     res <- request sdk directus (withToken (access_token authResponse) sdkReadMe) ;;
     setUser res ;;
     ret (JObj [("accessToken", access_token authResponse);
                ("refreshToken", refresh_token authResponse);
                ("expiresAt", expires_at authResponse);
                ("expires", expires authResponse)]))
    (fun error =>
       if truthy error && truthy (prop error "message")
       then console_error [JStr "Couldn't refresh tokens"; prop error "errors"] ;;
            throw (prop error "errors")
       else console_error [error] ;; throw error).

Definition signOut : Js JsVal :=
  try_catch
    (client_logout sdk directus ;;
     set_cookie AccessTokenCookie JUndefined JNull ;;
     set_cookie RefreshTokenCookie JUndefined JNull ;;
     set_user JNull ;;
     ret JUndefined)
    (fun error =>
       if truthy error && truthy (prop error "message")
       then console_error [JStr "Couldn't logut user"; prop error "errors"] ;;
            throw (prop error "errors")
       else console_error [error] ;; throw error).

End Composable.
End UseDirectusAuthCookie.

(** ** Observations on runs *)

(** The events a run added: those of [trace w'] that are not in [trace w]. *)
Definition events_since (w w' : World) : list Event :=
  firstn (List.length (trace w') - List.length (trace w)) (trace w').

Fixpoint sdk_calls (events : list Event) : list (Client * SdkCall) :=
  match events with
  | [] => []
  | SdkCalled c call :: rest => (c, call) :: sdk_calls rest
  | _ :: rest => sdk_calls rest
  end.

Fixpoint console_errors (events : list Event) : list (list JsVal) :=
  match events with
  | [] => []
  | ConsoleError args :: rest => args :: console_errors rest
  | _ :: rest => console_errors rest
  end.

Fixpoint cookie_writes (events : list Event) : list (CookieName * JsVal * JsVal) :=
  match events with
  | [] => []
  | CookieSet name maxAge value :: rest => (name, maxAge, value) :: cookie_writes rest
  | _ :: rest => cookie_writes rest
  end.

(** The key a read wrapper hands to [useAsyncData]. *)
Definition key_passed (m : Js AsyncDataCall) (w : World) : JsVal :=
  match fst (m w) with
  | Returned c => call_key c
  | Thrown _ => JUndefined
  end.

(** A read wrapper followed by one run of the handler it handed over. *)
Definition run_handler (m : Js AsyncDataCall) : Js JsVal :=
  c <- m ;; call_handler c.

(** The caller supplies no [options.key]. *)
Definition no_key (options : option AsyncDataDirectusReqItem) : Prop :=
  options ?. ad_key = JUndefined \/ options ?. ad_key = JNull.

(** *** The ten CRUD wrappers of useDirectusItems and their arguments *)

Inductive CrudCall : Type :=
| CreateItem (collection item : JsVal) (options : option DirectusReqItemOptions)
| CreateItems (collection items : JsVal) (options : option DirectusReqItemOptions)
| ReadItem (collection id : MaybeRef) (options : option AsyncDataDirectusReqItem)
| ReadItems (collection : MaybeRef) (options : option AsyncDataDirectusReqItem)
| ReadSingleton (collection : MaybeRef) (options : option AsyncDataDirectusReqItem)
| UpdateItem (collection id item : JsVal) (options : option DirectusReqItemOptions)
| UpdateItems (collection ids item : JsVal) (options : option DirectusReqItemOptions)
| UpdateSingleton (collection item : JsVal) (options : option DirectusReqItemOptions)
| DeleteItem (collection id : JsVal) (options : option DirectusReqOptions)
| DeleteItems (collection idOrQuery : JsVal) (options : option DirectusReqOptions).

(** Run a wrapper; a read wrapper together with one run of its handler. *)
Definition perform (sdk : Sdk) (hash : JsVal -> string) (useStaticToken : JsVal)
           (c : CrudCall) : Js JsVal :=
  match c with
  | CreateItem col item o => UseDirectusItems.createItem sdk useStaticToken col item o
  | CreateItems col items o => UseDirectusItems.createItems sdk useStaticToken col items o
  | ReadItem col id o => run_handler (UseDirectusItems.readItem sdk hash useStaticToken col id o)
  | ReadItems col o => run_handler (UseDirectusItems.readItems sdk hash useStaticToken col o)
  | ReadSingleton col o =>
      run_handler (UseDirectusItems.readSingleton sdk hash useStaticToken col o)
  | UpdateItem col id item o => UseDirectusItems.updateItem sdk useStaticToken col id item o
  | UpdateItems col ids item o => UseDirectusItems.updateItems sdk useStaticToken col ids item o
  | UpdateSingleton col item o => UseDirectusItems.updateSingleton sdk useStaticToken col item o
  | DeleteItem col id o => UseDirectusItems.deleteItem sdk useStaticToken col id o
  | DeleteItems col ids o => UseDirectusItems.deleteItems sdk useStaticToken col ids o
  end.

(** What the caller gave, as the claim words it: the SDK constructor of the
    same name applied to the caller's collection name, id(s), payload and
    query, each in its place. *)
Definition forwarded (c : CrudCall) (w : World) : RestCommand :=
  match c with
  | CreateItem col item o => sdkCreateItem col item (o ?. rio_query)
  | CreateItems col items o => sdkCreateItems col items (o ?. rio_query)
  | ReadItem col id o => sdkReadItem (ref_value col w) (ref_value id w) (o ?. ad_query)
  | ReadItems col o => sdkReadItems (ref_value col w) (o ?. ad_query)
  | ReadSingleton col o => sdkReadSingleton (ref_value col w) (o ?. ad_query)
  | UpdateItem col id item o => sdkUpdateItem col id item (o ?. rio_query)
  | UpdateItems col ids item o => sdkUpdateItems col ids item (o ?. rio_query)
  | UpdateSingleton col item o => sdkUpdateSingleton col item (o ?. rio_query)
  | DeleteItem col id _ => sdkDeleteItem col id
  | DeleteItems col ids _ => sdkDeleteItems col ids
  end.

(** The per-call [options.useStaticToken]. *)
Definition per_call_flag (c : CrudCall) : JsVal :=
  match c with
  | CreateItem _ _ o | CreateItems _ _ o | UpdateItem _ _ _ o
  | UpdateItems _ _ _ o | UpdateSingleton _ _ o => o ?. rio_useStaticToken
  | ReadItem _ _ o | ReadItems _ o | ReadSingleton _ o => o ?. ad_useStaticToken
  | DeleteItem _ _ o | DeleteItems _ _ o => o ?. ro_useStaticToken
  end.

(** *** Every exported operation *)

Inductive Operation : Type :=
| Crud (c : CrudCall)
| AuthLogin (identifier password : string) (options : option LoginOptions)
| AuthRefreshTokens
| AuthLogout
| AuthPasswordRequest (options : DirectusPasswordRequest)
| AuthPasswordReset (options : DirectusPasswordReset)
| AuthInviteUser (options : DirectusInviteUser)
| CookieSetUser (value : JsVal)
| CookieFetchUser
| CookieSignIn (identifier password : string)
| CookieRefreshTokens
| CookieSignOut.

(** What the composables take from their environment. *)
Record Setup := {
  the_sdk : Sdk;
  the_hash : JsVal -> string;
  items_useStaticToken : JsVal;
  config_useNuxtCookies : JsVal;
  user_readMe : JsVal -> Js JsVal;
  user_setUser : JsVal -> Js unit
}.

Definition run (s : Setup) (op : Operation) : Js JsVal :=
  match op with
  | Crud c => perform (the_sdk s) (the_hash s) (items_useStaticToken s) c
  | AuthLogin identifier password options =>
      UseDirectusAuth.login (the_sdk s) (config_useNuxtCookies s)
                            (user_readMe s) (user_setUser s) identifier password options
  | AuthRefreshTokens =>
      UseDirectusAuth.refreshTokens (the_sdk s) (user_readMe s) (user_setUser s)
  | AuthLogout => UseDirectusAuth.logout (the_sdk s)
  | AuthPasswordRequest options => UseDirectusAuth.passwordRequest (the_sdk s) options
  | AuthPasswordReset options => UseDirectusAuth.passwordReset (the_sdk s) options
  | AuthInviteUser options => UseDirectusAuth.inviteUser (the_sdk s) options
  | CookieSetUser value => UseDirectusAuthCookie.setUser value
  | CookieFetchUser => UseDirectusAuthCookie.fetchUser (the_sdk s)
  | CookieSignIn identifier password =>
      UseDirectusAuthCookie.signIn (the_sdk s) identifier password
  | CookieRefreshTokens => UseDirectusAuthCookie.refreshTokens (the_sdk s)
  | CookieSignOut => UseDirectusAuthCookie.signOut (the_sdk s)
  end.

(** The operations whose SDK call sits in a [try]/[catch] of their own. *)
Definition has_try_catch (op : Operation) : bool :=
  match op with
  | Crud (ReadItem _ _ _) | Crud (ReadItems _ _) | Crud (ReadSingleton _ _) => false
  | CookieSetUser _ => false
  | _ => true
  end.

(** The [catch] blocks that end in [throw]. *)
Definition rethrows (op : Operation) : bool :=
  match op with
  | CookieFetchUser | CookieSignIn _ _ | CookieRefreshTokens | CookieSignOut => true
  | _ => false
  end.

(** The context string of the [catch] block. *)
Definition context (op : Operation) : string :=
  match op with
  | Crud (CreateItem _ _ _) => "Couldn't create item"
  | Crud (CreateItems _ _ _) => "Couldn't create items"
  | Crud (UpdateItem _ _ _ _) => "Couldn't update item"
  | Crud (UpdateItems _ _ _ _) => "Couldn't update items"
  | Crud (UpdateSingleton _ _ _) => "Couldn't update singleton"
  | Crud (DeleteItem _ _ _) => "Couldn't delete item"
  | Crud (DeleteItems _ _ _) => "Couldn't delete items"
  | Crud _ => EmptyString
  | AuthLogin _ _ _ | CookieSignIn _ _ => "Couldn't login user"
  | AuthRefreshTokens | CookieRefreshTokens => "Couldn't refresh tokens"
  | AuthLogout | CookieSignOut => "Couldn't logut user"
  | AuthPasswordRequest _ => "Couldn't request password reset"
  | AuthPasswordReset _ => "Couldn't reset password"
  | AuthInviteUser _ => "Couldn't invite user"
  | CookieSetUser _ => EmptyString
  | CookieFetchUser => "Couldn't fetch user"
  end.

(** The first SDK call an operation makes from world [w], if it makes one. *)
Definition first_call (s : Setup) (op : Operation) (w : World)
  : option (Client * SdkCall) :=
  match op with
  | Crud c =>
      Some (useDirectusRest (Some (js_or (per_call_flag c) (items_useStaticToken s))),
            Request (forwarded c w))
  | AuthLogin identifier password options =>
      Some (useDirectusRest (Some (JBool false)),
            Login identifier password
                  (Some (defu options
                              {| lo_otp := JUndefined;
                                 lo_mode := if truthy (config_useNuxtCookies s)
                                            then JStr "json" else JStr "cookie" |})))
  | AuthRefreshTokens => Some (useDirectusRest (Some (JBool false)), Refresh)
  | AuthLogout => Some (useDirectusRest (Some (JBool false)), Logout)
  | AuthPasswordRequest o =>
      Some (UseDirectusAuth.client (pr_useStaticToken o),
            Request (sdkPasswordRequest (pr_email o) (pr_reset_url o)))
  | AuthPasswordReset o =>
      Some (UseDirectusAuth.client (ps_useStaticToken o),
            Request (sdkPasswordReset (ps_token o) (ps_password o)))
  | AuthInviteUser o =>
      Some (UseDirectusAuth.client (iu_useStaticToken o),
            Request (sdkInviteUser (iu_email o) (iu_role o) (iu_invite_url o)))
  | CookieSetUser _ => None
  | CookieFetchUser =>
      if truthy (accessTokenCookie w)
      then Some (useDirectusRest None, Request sdkReadMe)
      else None
  | CookieSignIn identifier password => Some (directus, Login identifier password None)
  | CookieRefreshTokens => Some (directus, Refresh)
  | CookieSignOut => Some (directus, Logout)
  end.

(** The error the SDK answers a call with, if it rejects it. *)
Definition sdk_error (sdk : Sdk) (events : list Event) (c : Client) (call : SdkCall)
  : option JsVal :=
  match call with
  | Request cmd =>
      match sdk_request sdk events c cmd with Thrown e => Some e | _ => None end
  | Login identifier password params =>
      match sdk_login sdk events c identifier password params with
      | Thrown e => Some e | _ => None
      end
  | Refresh => match sdk_refresh sdk events c with Thrown e => Some e | _ => None end
  | Logout => match sdk_logout sdk events c with Thrown e => Some e | _ => None end
  end.

(** [error && error.message] is truthy. *)
Definition carries_message (error : JsVal) : bool :=
  truthy error && truthy (prop error "message").

(** The operations that assign the session cells (user, token cookies). *)
Definition session_operation (op : Operation) : bool :=
  match op with
  | AuthLogin _ _ _ | AuthRefreshTokens | AuthLogout
  | CookieSetUser _ | CookieFetchUser | CookieSignIn _ _
  | CookieRefreshTokens | CookieSignOut => true
  | _ => false
  end.

(** Bounds on the SDK requests of one invocation. *)
Definition min_requests (op : Operation) : nat :=
  match op with
  | CookieSetUser _ | CookieFetchUser => 0
  | _ => 1
  end.

Definition max_requests (op : Operation) : nat :=
  match op with
  | CookieSetUser _ => 0
  | AuthLogin _ _ _ | AuthRefreshTokens | CookieSignIn _ _ | CookieRefreshTokens => 2
  | _ => 1
  end.

(** *** Sample data *)

Definition world0 : World :=
  {| user := JUndefined;
     accessTokenCookie := JUndefined;
     refreshTokenCookie := JUndefined;
     cells := [];
     trace := [] |}.

Definition forbidden : JsVal :=
  JObj [("message", JStr "Forbidden");
        ("errors", JArr [JObj [("message", JStr "You don't have permission")]])].

(** An error value without a [message]. *)
Definition errors_only : JsVal :=
  JObj [("errors", JArr [JObj [("message", JStr "You don't have permission")]])].

Definition failing_sdk (e : JsVal) : Sdk :=
  {| sdk_request := fun _ _ _ => Thrown e;
     sdk_login := fun _ _ _ _ _ => Thrown e;
     sdk_refresh := fun _ _ => Thrown e;
     sdk_logout := fun _ _ => Thrown e |}.

Definition tokens (exp : JsVal) : AuthenticationData :=
  {| access_token := JStr "access";
     refresh_token := JStr "refresh";
     expires_at := JNum 1700000900;
     expires := exp |}.

Definition working_sdk (exp : JsVal) : Sdk :=
  {| sdk_request := fun _ _ _ => Returned (JObj [("id", JStr "u1")]);
     sdk_login := fun _ _ _ _ _ => Returned (tokens exp);
     sdk_refresh := fun _ _ => Returned (tokens exp);
     sdk_logout := fun _ _ => Returned tt |}.

(** A stand-in for ohash that tells apart a missing second element. *)
Definition sample_hash (v : JsVal) : string :=
  match v with
  | JArr [_; JUndefined] => "without-options"
  | _ => "with-options"
  end.

Definition sample_setup (sdk : Sdk) : Setup :=
  {| the_sdk := sdk;
     the_hash := sample_hash;
     items_useStaticToken := JBool true;
     config_useNuxtCookies := JBool true;
     user_readMe := fun _ => request sdk (useDirectusRest (Some (JBool false))) sdkReadMe;
     user_setUser := set_user |}.

Definition no_options : AsyncDataDirectusReqItem :=
  {| ad_key := JUndefined;
     ad_query := JUndefined;
     ad_params := JUndefined;
     ad_useStaticToken := JUndefined |}.

(** ** What the claims speak of *)

(** What C2 asks of an operation run from [w]: if its SDK call rejects with
    an error that carries a message, the run adds the call and one
    [console.error] of the context string and the nested error list, and
    ends by rethrowing that list or by swallowing the error. *)
Definition caught_and_logged (s : Setup) (op : Operation) (w : World) : Prop :=
  forall c call e,
    first_call s op w = Some (c, call) ->
    sdk_error (the_sdk s) (trace w) c call = Some e ->
    carries_message e = true ->
    events_since w (snd (run s op w)) =
    [ConsoleError [JStr (context op); prop e "errors"]; SdkCalled c call]
    /\ fst (run s op w) =
       if rethrows op then Thrown (prop e "errors") else Returned JUndefined.

Definition requests_made (s : Setup) (op : Operation) (w : World) : nat :=
  List.length (sdk_calls (events_since w (snd (run s op w)))).

(** A computation whose run adds between [lo] and [hi] SDK requests to the
    trace, and removes nothing from it. *)
Definition within {A} (m : Js A) (lo hi : nat) : Prop :=
  forall w, exists new,
      trace (snd (m w)) = new ++ trace w
      /\ lo <= List.length (sdk_calls new) <= hi.

(** What the environment's [readMe] and [setUser] are taken to do: [readMe]
    makes at most one SDK request, [setUser] makes none. *)
Definition readMe_one_request (s : Setup) : Prop :=
  forall o, within (user_readMe s o) 0 1.

Definition setUser_no_request (s : Setup) : Prop :=
  forall v, within (user_setUser s v) 0 0.

(** The session cells: the user and the two token cookies. *)
Definition session (w : World) : JsVal * JsVal * JsVal :=
  (user w, accessTokenCookie w, refreshTokenCookie w).

Definition signed_in : World :=
  {| user := JObj [("id", JStr "u1")];
     accessTokenCookie := JStr "access";
     refreshTokenCookie := JStr "refresh";
     cells := [];
     trace := [] |}.

(** The cookie writes that follow an authentication response, most recent
    first: none when its expires is null. *)
Definition cookie_events (a : AuthenticationData) : list Event :=
  if not_null (expires a)
  then [CookieSet AccessTokenCookie (expires a) (access_token a);
        CookieSet RefreshTokenCookie (expires a) (refresh_token a)]
  else [].

(** The second SDK call of an operation run from [w], with the trace it is
    made on: signIn and the cookie-based refreshTokens read the user once the
    authentication call has resolved. *)
Definition second_call (s : Setup) (op : Operation) (w : World)
  : option (list Event * Client * SdkCall) :=
  match op with
  | CookieSignIn identifier password =>
      match sdk_login (the_sdk s) (trace w) directus identifier password None with
      | Returned a =>
          Some (cookie_events a
                  ++ SdkCalled directus (Login identifier password None) :: trace w,
                directus, Request (withToken (access_token a) sdkReadMe))
      | Thrown _ => None
      end
  | CookieRefreshTokens =>
      match sdk_refresh (the_sdk s) (trace w) directus with
      | Returned a =>
          Some (cookie_events a ++ SdkCalled directus Refresh :: trace w,
                directus, Request (withToken (access_token a) sdkReadMe))
      | Thrown _ => None
      end
  | _ => None
  end.

(** The operations that go on with [readMe] and [setUser] of
    [useDirectusUser()] once their authentication call has resolved. *)
Definition reads_user (op : Operation) : bool :=
  match op with
  | AuthLogin _ _ _ | AuthRefreshTokens => true
  | _ => false
  end.

(** The same as [caught_and_logged], for the second SDK call: the run ends
    with the call on its trace, then the log. *)
Definition second_call_caught (s : Setup) (op : Operation) (w : World) : Prop :=
  forall h c call e,
    second_call s op w = Some (h, c, call) ->
    sdk_error (the_sdk s) h c call = Some e ->
    carries_message e = true ->
    trace (snd (run s op w)) =
    ConsoleError [JStr (context op); prop e "errors"] :: SdkCalled c call :: h
    /\ fst (run s op w) =
       if rethrows op then Thrown (prop e "errors") else Returned JUndefined.

(** The same for what [readMe] or [setUser] throw in login and
    refreshTokens: one log on top of what they did, and undefined. *)
Definition helper_error_caught (s : Setup) (op : Operation) (w : World) : Prop :=
  reads_user op = true ->
  forall c call e,
    first_call s op w = Some (c, call) ->
    sdk_error (the_sdk s) (trace w) c call = None ->
    carries_message e = true ->
    (forall w2,
        user_readMe s (JObj [("useStaticToken", JBool false)])
                    (emit (SdkCalled c call) w) = (Thrown e, w2) ->
        run s op w =
        (Returned JUndefined,
         emit (ConsoleError [JStr (context op); prop e "errors"]) w2))
    /\ (forall u w2 w3,
           user_readMe s (JObj [("useStaticToken", JBool false)])
                       (emit (SdkCalled c call) w) = (Returned u, w2) ->
           user_setUser s u w2 = (Thrown e, w3) ->
           run s op w =
           (Returned JUndefined,
            emit (ConsoleError [JStr (context op); prop e "errors"]) w3)).

(** How an operation with a [try]/[catch] ends when it caught [e]. *)
Definition outcome_on_error (op : Operation) (e : JsVal) : Result JsVal :=
  if rethrows op
  then Thrown (if carries_message e then prop e "errors" else e)
  else Returned JUndefined.

(** Whatever the first or the second SDK call rejects with, message or not,
    the run ends as its [catch] block does. *)
Definition any_error_caught (s : Setup) (op : Operation) (w : World) : Prop :=
  (forall c call e,
      first_call s op w = Some (c, call) ->
      sdk_error (the_sdk s) (trace w) c call = Some e ->
      fst (run s op w) = outcome_on_error op e)
  /\ (forall h c call e,
         second_call s op w = Some (h, c, call) ->
         sdk_error (the_sdk s) h c call = Some e ->
         fst (run s op w) = outcome_on_error op e).

(** Every failure inside the [try] of an operation is caught, and logged
    when it carries a message. *)
Definition all_errors_caught (s : Setup) (op : Operation) (w : World) : Prop :=
  caught_and_logged s op w
  /\ second_call_caught s op w
  /\ helper_error_caught s op w
  /\ any_error_caught s op w.

(** What [readMe] and, when it returned, [setUser] add to the trace of
    [w1]. *)
Definition helper_events (s : Setup) (w1 : World) : list Event :=
  match user_readMe s (JObj [("useStaticToken", JBool false)]) w1 with
  | (Returned u, w2) => events_since w1 (snd (user_setUser s u w2))
  | (Thrown _, w2) => events_since w1 w2
  end.

(** The SDK calls of one invocation, most recent first: none without a first
    call; the first call alone when it rejects; when it resolves, the second
    call on top of it for signIn and the cookie-based refreshTokens, and the
    calls of [readMe] and [setUser] on top of it for login and refreshTokens. *)
Definition expected_calls (s : Setup) (op : Operation) (w : World)
  : list (Client * SdkCall) :=
  match first_call s op w with
  | None => []
  | Some (c, call) =>
      match sdk_error (the_sdk s) (trace w) c call with
      | Some _ => [(c, call)]
      | None =>
          if reads_user op
          then sdk_calls (helper_events s (emit (SdkCalled c call) w)) ++ [(c, call)]
          else match second_call s op w with
               | Some (_, c2, call2) => [(c2, call2); (c, call)]
               | None => [(c, call)]
               end
      end
  end.

(** *** More sample data *)

(** An SDK that authenticates but rejects every request with [e]. *)
Definition login_only_sdk (exp e : JsVal) : Sdk :=
  {| sdk_request := fun _ _ _ => Thrown e;
     sdk_login := fun _ _ _ _ _ => Returned (tokens exp);
     sdk_refresh := fun _ _ => Returned (tokens exp);
     sdk_logout := fun _ _ => Returned tt |}.

(** The caller holds two refs: a collection name and an item id. *)
Definition world_with_refs (collection id : JsVal) : World :=
  {| user := JUndefined;
     accessTokenCookie := JUndefined;
     refreshTokenCookie := JUndefined;
     cells := [collection; id];
     trace := [] |}.

(** [null] or [undefined]. *)
Definition nullish (v : JsVal) : bool :=
  match v with
  | JUndefined | JNull => true
  | _ => false
  end.

(** The handler a read wrapper called in world [w] hands to [useAsyncData]. *)
Definition handler_passed (m : Js AsyncDataCall) (w : World) : Js JsVal :=
  match fst (m w) with
  | Returned c => call_handler c
  | Thrown e => throw e
  end.

(** The read wrappers among the CRUD calls. *)
Definition reader (sdk : Sdk) (hash : JsVal -> string) (useStaticToken : JsVal)
           (c : CrudCall) : option (Js AsyncDataCall) :=
  match c with
  | ReadItem col id o => Some (UseDirectusItems.readItem sdk hash useStaticToken col id o)
  | ReadItems col o => Some (UseDirectusItems.readItems sdk hash useStaticToken col o)
  | ReadSingleton col o =>
      Some (UseDirectusItems.readSingleton sdk hash useStaticToken col o)
  | _ => None
  end.

(** The caller's [options.key]. *)
Definition explicit_key (c : CrudCall) : JsVal :=
  match c with
  | ReadItem _ _ o | ReadItems _ o | ReadSingleton _ o => o ?. ad_key
  | _ => JUndefined
  end.

(** * Properties *)

(** ** Traces *)

Lemma events_since_app (w w' : World) (new : list Event) :
  trace w' = new ++ trace w -> events_since w w' = new.
Proof.
  intros H. unfold events_since. rewrite H, length_app.
  replace (List.length new + List.length (trace w) - List.length (trace w))%nat
    with (List.length new + 0)%nat by lia.
  rewrite firstn_app_2. simpl. apply app_nil_r.
Qed.

Lemma events_since_same (w w' : World) :
  trace w' = trace w -> events_since w w' = [].
Proof. intros H. apply events_since_app. exact H. Qed.

Lemma sdk_calls_app (l1 l2 : list Event) :
  sdk_calls (l1 ++ l2) = sdk_calls l1 ++ sdk_calls l2.
Proof.
  induction l1 as [|e l1 IH]; simpl; [reflexivity|].
  destruct e; simpl; rewrite IH; reflexivity.
Qed.

(** The events in front of [base] in a trace built by consing onto it. *)
Ltac prefix_of t base :=
  lazymatch t with
  | base => constr:(@nil Event)
  | ?e :: ?rest => let p := prefix_of rest base in constr:(e :: p)
  end.

Ltac since :=
  repeat match goal with
  | |- context [events_since ?w ?w'] =>
      let t := eval cbn in (trace w') in
      let b := eval cbn in (trace w) in
      let p := prefix_of t b in
      rewrite (events_since_app w w' p) by reflexivity
  end.

(** ** Cache keys of the read path *)

Section Keys.

Variable sdk : Sdk.
Variable hash : JsVal -> string.
Variable useStaticToken : JsVal.

Lemma no_key_nullish (options : option AsyncDataDirectusReqItem) (k : JsVal) :
  no_key options -> js_nullish (options ?. ad_key) k = k.
Proof. intros [H|H]; rewrite H; reflexivity. Qed.

(** readItem: equal collection name, id, query and params give equal keys. *)
Lemma readItem_key_content
      (c1 c2 i1 i2 : MaybeRef) (o1 o2 : option AsyncDataDirectusReqItem)
      (w1 w2 : World) :
  no_key o1 -> no_key o2 ->
  ref_value c1 w1 = ref_value c2 w2 ->
  ref_value i1 w1 = ref_value i2 w2 ->
  o1 ?. ad_query = o2 ?. ad_query ->
  o1 ?. ad_params = o2 ?. ad_params ->
  key_passed (UseDirectusItems.readItem sdk hash useStaticToken c1 i1 o1) w1 =
  key_passed (UseDirectusItems.readItem sdk hash useStaticToken c2 i2 o2) w2.
Proof.
  intros K1 K2 Hc Hi Hq Hp.
  unfold key_passed, UseDirectusItems.readItem; simpl.
  rewrite !no_key_nullish by assumption.
  rewrite Hc, Hi, Hq, Hp. reflexivity.
Qed.

(** readSingleton: equal collection name, query and params give equal keys. *)
Lemma readSingleton_key_content
      (c1 c2 : MaybeRef) (o1 o2 : option AsyncDataDirectusReqItem)
      (w1 w2 : World) :
  no_key o1 -> no_key o2 ->
  ref_value c1 w1 = ref_value c2 w2 ->
  o1 ?. ad_query = o2 ?. ad_query ->
  o1 ?. ad_params = o2 ?. ad_params ->
  key_passed (UseDirectusItems.readSingleton sdk hash useStaticToken c1 o1) w1 =
  key_passed (UseDirectusItems.readSingleton sdk hash useStaticToken c2 o2) w2.
Proof.
  intros K1 K2 Hc Hq Hp.
  unfold key_passed, UseDirectusItems.readSingleton; simpl.
  rewrite !no_key_nullish by assumption.
  rewrite Hc, Hq, Hp. reflexivity.
Qed.

(** readItems: the key is the hash of the collection name and of
    [options?.toString()]. *)
Lemma readItems_key_value (c : MaybeRef) (o : option AsyncDataDirectusReqItem)
      (w : World) :
  no_key o ->
  key_passed (UseDirectusItems.readItems sdk hash useStaticToken c o) w =
  JStr (hash (JArr [ref_value c w; opt_toString o])).
Proof.
  intros K. unfold key_passed, UseDirectusItems.readItems; simpl.
  apply no_key_nullish; assumption.
Qed.

End Keys.

(** C1 (the code departs from the claim in readItems).  With no explicit key,
    readItems hashes the collection name and [options?.toString()]: the key
    is the same whatever the query and params of an options object are, and
    a call without options and a call with an empty options object, whose
    collection, query and params are equal, hash different values and, under
    a hash that separates them, get different keys. *)
Theorem readItems_key_not_from_content :
  (forall sdk hash ust c w q1 p1 t1 q2 p2 t2,
      key_passed (UseDirectusItems.readItems sdk hash ust c
                    (Some {| ad_key := JUndefined; ad_query := q1;
                             ad_params := p1; ad_useStaticToken := t1 |})) w =
      key_passed (UseDirectusItems.readItems sdk hash ust c
                    (Some {| ad_key := JUndefined; ad_query := q2;
                             ad_params := p2; ad_useStaticToken := t2 |})) w)
  /\ (forall sdk hash ust,
         key_passed (UseDirectusItems.readItems sdk hash ust
                       (Plain (JStr "articles")) None) world0 =
         JStr (hash (JArr [JStr "articles"; JUndefined]))
         /\ key_passed (UseDirectusItems.readItems sdk hash ust
                          (Plain (JStr "articles")) (Some no_options)) world0 =
            JStr (hash (JArr [JStr "articles"; JStr "[object Object]"])))
  /\ (None ?. ad_query = (Some no_options) ?. ad_query
      /\ None ?. ad_params = (Some no_options) ?. ad_params
      /\ exists sdk hash ust,
          key_passed (UseDirectusItems.readItems sdk hash ust
                        (Plain (JStr "articles")) None) world0 <>
          key_passed (UseDirectusItems.readItems sdk hash ust
                        (Plain (JStr "articles")) (Some no_options)) world0).
Proof.
  split; [|split].
  - intros. reflexivity.
  - intros. split; reflexivity.
  - split; [reflexivity|]. split; [reflexivity|].
    exists (working_sdk JNull), sample_hash, JUndefined.
    unfold key_passed; simpl. discriminate.
Qed.

(** ** Forwarding of arguments and of the token flag *)

(** Unfold a wrapper down to the SDK's answers and decide them. *)
Ltac step_sdk :=
  repeat match goal with
  | |- context [sdk_request ?s ?t ?c ?cmd] =>
      let E := fresh "Ereq" in destruct (sdk_request s t c cmd) eqn:E; simpl
  | |- context [sdk_login ?s ?t ?c ?i ?p ?o] =>
      let E := fresh "Elogin" in destruct (sdk_login s t c i p o) eqn:E; simpl
  | |- context [sdk_refresh ?s ?t ?c] =>
      let E := fresh "Erefresh" in destruct (sdk_refresh s t c) eqn:E; simpl
  | |- context [sdk_logout ?s ?t ?c] =>
      let E := fresh "Elogout" in destruct (sdk_logout s t c) eqn:E; simpl
  | |- context [if truthy ?e && truthy (prop ?e "message") then _ else _] =>
      destruct (truthy e && truthy (prop e "message")); simpl
  end.

Ltac unfold_items :=
  unfold perform, run_handler,
    UseDirectusItems.createItem, UseDirectusItems.createItems,
    UseDirectusItems.readItem, UseDirectusItems.readItems,
    UseDirectusItems.readSingleton, UseDirectusItems.updateItem,
    UseDirectusItems.updateItems, UseDirectusItems.updateSingleton,
    UseDirectusItems.deleteItem, UseDirectusItems.deleteItems,
    UseDirectusItems.client,
    try_catch, bind, ret, throw, request, console_error.

(** Each CRUD wrapper makes one SDK call: on the client resolved with
    [options?.useStaticToken || useStaticToken], with the request built from
    the caller's arguments. *)
Lemma perform_sdk_calls (sdk : Sdk) (hash : JsVal -> string) (ust : JsVal)
      (c : CrudCall) (w : World) :
  sdk_calls (events_since w (snd (perform sdk hash ust c w))) =
  [(useDirectusRest (Some (js_or (per_call_flag c) ust)), Request (forwarded c w))].
Proof.
  destruct c; unfold_items; simpl; step_sdk; since; reflexivity.
Qed.

(** C4.  Each of the ten CRUD wrappers of useDirectusItems hands the caller's
    collection name, item id(s), payload and query to the SDK constructor of
    the same name, unchanged and in place, and makes no other request. *)
Theorem crud_arguments_forwarded (sdk : Sdk) (hash : JsVal -> string) (ust : JsVal)
        (c : CrudCall) (w : World) :
  map snd (sdk_calls (events_since w (snd (perform sdk hash ust c w)))) =
  [Request (forwarded c w)].
Proof. rewrite perform_sdk_calls. reflexivity. Qed.

Lemma truthy_js_or (a b : JsVal) : truthy (js_or a b) = truthy a || truthy b.
Proof. unfold js_or. destruct (truthy a) eqn:E; simpl; [exact E | reflexivity]. Qed.

(** C7.  In every CRUD wrapper the flag given to the client resolver is
    [options?.useStaticToken || useStaticToken]; it is truthy exactly when
    one of the two is, and when the per-call flag is falsy and the
    composable-level flag is truthy, the composable-level flag is the one
    used. *)
Theorem token_flag_is_or (sdk : Sdk) (hash : JsVal -> string) (ust : JsVal)
        (c : CrudCall) (w : World) :
  (exists flag,
      map fst (sdk_calls (events_since w (snd (perform sdk hash ust c w)))) =
      [useDirectusRest (Some flag)]
      /\ flag = js_or (per_call_flag c) ust
      /\ truthy flag = truthy (per_call_flag c) || truthy ust)
  /\ (truthy (per_call_flag c) = false -> truthy ust = true ->
      map fst (sdk_calls (events_since w (snd (perform sdk hash ust c w)))) =
      [useDirectusRest (Some ust)]).
Proof.
  rewrite perform_sdk_calls. split.
  - exists (js_or (per_call_flag c) ust). split; [reflexivity|].
    split; [reflexivity | apply truthy_js_or].
  - intros Hc _. unfold js_or. rewrite Hc. reflexivity.
Qed.

(** An explicit per-call [false] next to a composable-level [true]. *)
Lemma token_flag_is_or_witness :
  map fst (sdk_calls (events_since world0
             (snd (perform (working_sdk JNull) sample_hash (JBool true)
                           (CreateItem (JStr "articles") (JObj [("title", JStr "Hello")])
                                       (Some {| rio_useStaticToken := JBool false;
                                                rio_query := JUndefined |}))
                           world0)))) =
  [useDirectusRest (Some (JBool true))].
Proof.
  apply (proj2 (token_flag_is_or (working_sdk JNull) sample_hash (JBool true)
                  (CreateItem (JStr "articles") (JObj [("title", JStr "Hello")])
                              (Some {| rio_useStaticToken := JBool false;
                                       rio_query := JUndefined |}))
                  world0)); reflexivity.
Defined.

(** ** Errors of the SDK *)

Ltac unfold_auth :=
  unfold UseDirectusAuth.login, UseDirectusAuth.refreshTokens, UseDirectusAuth.logout,
    UseDirectusAuth.passwordRequest, UseDirectusAuth.passwordReset,
    UseDirectusAuth.inviteUser, UseDirectusAuth.client,
    UseDirectusAuthCookie.setUser, UseDirectusAuthCookie.fetchUser,
    UseDirectusAuthCookie.signIn, UseDirectusAuthCookie.refreshTokens,
    UseDirectusAuthCookie.signOut,
    try_catch, bind, ret, throw, request, client_login, client_refresh,
    client_logout, console_error, cookie_value, set_cookie, set_user.

Ltac unfold_run := unfold run; unfold_items; unfold_auth.

(** Use the hypothesis that the SDK rejected the call. *)
Ltac sdk_rejected H :=
  unfold sdk_error in H;
  match type of H with
  | match ?r with _ => _ end = Some _ =>
      let E := fresh "Esdk" in
      destruct r eqn:E; [discriminate H|]; injection H as H; subst
  end.

(** X17.  The read wrappers have no [try]/[catch]: the handler they give to
    [useAsyncData] ends with the SDK's error as thrown and logs nothing. *)
Lemma read_handler_throws_raw (sdk : Sdk) (hash : JsVal -> string) (ust : JsVal)
      (c : CrudCall) (w : World) (e : JsVal) :
  has_try_catch (Crud c) = false ->
  sdk_request sdk (trace w) (useDirectusRest (Some (js_or (per_call_flag c) ust)))
              (forwarded c w) = Thrown e ->
  fst (perform sdk hash ust c w) = Thrown e
  /\ console_errors (events_since w (snd (perform sdk hash ust c w))) = [].
Proof.
  intros Hc He.
  destruct c; simpl in Hc; try discriminate; simpl in He;
    unfold_items; simpl; rewrite He; simpl; since; split; reflexivity.
Qed.

(** C2, as stated, fails on the read path: readItem on an SDK that rejects
    with an error carrying a message neither logs nor catches. *)
Lemma readItem_error_not_caught :
  ~ caught_and_logged (sample_setup (failing_sdk forbidden))
      (Crud (ReadItem (Plain (JStr "articles")) (Plain (JNum 1)) None)) world0.
Proof.
  intros H.
  specialize (H (useDirectusRest (Some (JBool true)))
                (Request (sdkReadItem (JStr "articles") (JNum 1) JUndefined))
                forbidden eq_refl eq_refl eq_refl).
  destruct H as [H _]. vm_compute in H. discriminate H.
Qed.

(** The first SDK call of an operation with a [try]/[catch]. *)
Lemma first_call_error_caught (s : Setup) (op : Operation) (w : World) :
  has_try_catch op = true -> caught_and_logged s op w.
Proof.
  intros Htc c call e Hfirst Herr Hmsg.
  unfold carries_message in Hmsg.
  destruct op as [[]| | | | | | | | | | | ]; simpl in Htc; try discriminate Htc;
    simpl in Hfirst;
    try (destruct (truthy (accessTokenCookie w)) eqn:Etok; [|discriminate Hfirst]);
    injection Hfirst as <- <-; sdk_rejected Herr;
    unfold_run; unfold UseDirectusAuth.client in Esdk; simpl in Esdk |- *;
    try rewrite Etok; simpl;
    rewrite Esdk; simpl; rewrite Hmsg; simpl; since; split; reflexivity.
Qed.

(** The second SDK call: the readMe request of signIn and of the cookie-based
    refreshTokens. *)
Lemma second_call_error_caught (s : Setup) (op : Operation) (w : World) :
  second_call_caught s op w.
Proof.
  intros h c call e Hsec Herr Hmsg.
  unfold carries_message in Hmsg.
  destruct op; simpl in Hsec; try discriminate Hsec.
  - destruct (sdk_login (the_sdk s) (trace w) directus identifier password None)
      as [a|e0] eqn:El; [|discriminate Hsec].
    injection Hsec as <- <- <-. sdk_rejected Herr.
    unfold_run; simpl. rewrite El; simpl.
    unfold cookie_events in Esdk |- *.
    destruct (not_null (expires a)); simpl in Esdk |- *;
      rewrite Esdk; simpl; rewrite Hmsg; split; reflexivity.
  - destruct (sdk_refresh (the_sdk s) (trace w) directus) as [a|e0] eqn:El;
      [|discriminate Hsec].
    injection Hsec as <- <- <-. sdk_rejected Herr.
    unfold_run; simpl. rewrite El; simpl.
    unfold cookie_events in Esdk |- *.
    destruct (not_null (expires a)); simpl in Esdk |- *;
      rewrite Esdk; simpl; rewrite Hmsg; split; reflexivity.
Qed.

(** Replace the run of a helper by its known outcome. *)
Ltac helper_outcome H :=
  match type of H with
  | ?m ?w1 = ?r =>
      match goal with
      | |- context [m ?w0] => replace (m w0) with r by (symmetry; exact H)
      end
  end.

(** What [readMe] and [setUser] throw in login and refreshTokens. *)
Lemma helper_error_is_caught (s : Setup) (op : Operation) (w : World) :
  helper_error_caught s op w.
Proof.
  intros Hru c call e Hfirst Hnone Hmsg.
  unfold carries_message in Hmsg. unfold sdk_error in Hnone.
  destruct op; simpl in Hru; try discriminate Hru;
    simpl in Hfirst; injection Hfirst as <- <-;
    (split; [intros w2 Hread | intros u w2 w3 Hread Hset]);
    unfold_run; simpl in Hnone |- *;
    match type of Hnone with
    | match ?r with _ => _ end = None => destruct r as [a|e0]; [|discriminate Hnone]
    end; simpl;
    helper_outcome Hread; simpl;
    try helper_outcome Hset; simpl;
    rewrite Hmsg; reflexivity.
Qed.

(** The outcome for any error of the first or second call. *)
Lemma any_error_is_caught (s : Setup) (op : Operation) (w : World) :
  has_try_catch op = true -> any_error_caught s op w.
Proof.
  intros Htc. unfold any_error_caught, outcome_on_error, carries_message. split.
  - intros c call e Hfirst Herr.
    destruct op as [[]| | | | | | | | | | | ]; simpl in Htc; try discriminate Htc;
      simpl in Hfirst;
      try (destruct (truthy (accessTokenCookie w)) eqn:Etok; [|discriminate Hfirst]);
      injection Hfirst as <- <-; sdk_rejected Herr;
      unfold_run; unfold UseDirectusAuth.client in Esdk; simpl in Esdk |- *;
      try rewrite Etok; simpl;
      rewrite Esdk; simpl; step_sdk; reflexivity.
  - intros h c call e Hsec Herr.
    destruct op; simpl in Hsec; try discriminate Hsec.
    + destruct (sdk_login (the_sdk s) (trace w) directus identifier password None)
        as [a|e0] eqn:El; [|discriminate Hsec].
      injection Hsec as <- <- <-. sdk_rejected Herr.
      unfold_run; simpl. rewrite El; simpl.
      unfold cookie_events in Esdk.
      destruct (not_null (expires a)); simpl in Esdk |- *;
        rewrite Esdk; simpl; step_sdk; reflexivity.
    + destruct (sdk_refresh (the_sdk s) (trace w) directus) as [a|e0] eqn:El;
        [|discriminate Hsec].
      injection Hsec as <- <- <-. sdk_rejected Herr.
      unfold_run; simpl. rewrite El; simpl.
      unfold cookie_events in Esdk.
      destruct (not_null (expires a)); simpl in Esdk |- *;
        rewrite Esdk; simpl; step_sdk; reflexivity.
Qed.

(** C2, amended.  Every exported operation with a [try]/[catch] of its own
    (all but readItem, readItems, readSingleton and setUser): when an SDK
    call of the operation (the first one, or the readMe request that signIn
    and the cookie-based refreshTokens make second) rejects with an error
    that carries a message, the operation logs the context string with the
    nested error list right after the call; the cookie-based fetchUser,
    signIn, refreshTokens and signOut then rethrow the nested error list, the
    others swallow the error and return undefined.  login and refreshTokens
    catch, log and swallow in the same way what [readMe] or [setUser]
    throw.  An error without a message is caught as well: the run ends by
    rethrowing it as it is (the cookie-based operations) or by returning
    undefined. *)
Theorem try_catch_logs_error (s : Setup) (op : Operation) (w : World) :
  has_try_catch op = true -> all_errors_caught s op w.
Proof.
  intros Htc. split; [|split; [|split]].
  - apply first_call_error_caught. exact Htc.
  - apply second_call_error_caught.
  - apply helper_error_is_caught.
  - apply any_error_is_caught. exact Htc.
Qed.

(** Two instances: updateItem on a rejecting SDK, and signIn on an SDK that
    authenticates and then rejects the readMe request. *)
Lemma try_catch_logs_error_witness :
  (events_since world0
     (snd (run (sample_setup (failing_sdk forbidden))
               (Crud (UpdateItem (JStr "articles") (JNum 1)
                                 (JObj [("title", JStr "Hello")]) None))
               world0)) =
   [ConsoleError [JStr "Couldn't update item"; prop forbidden "errors"];
    SdkCalled (useDirectusRest (Some (JBool true)))
              (Request (sdkUpdateItem (JStr "articles") (JNum 1)
                                      (JObj [("title", JStr "Hello")]) JUndefined))]
   /\ fst (run (sample_setup (failing_sdk forbidden))
               (Crud (UpdateItem (JStr "articles") (JNum 1)
                                 (JObj [("title", JStr "Hello")]) None))
               world0) = Returned JUndefined)
  /\ (trace (snd (run (sample_setup (login_only_sdk JNull forbidden))
                      (CookieSignIn "admin@example.com" "secret") world0)) =
      [ConsoleError [JStr "Couldn't login user"; prop forbidden "errors"];
       SdkCalled directus (Request (withToken (JStr "access") sdkReadMe));
       SdkCalled directus (Login "admin@example.com" "secret" None)]
      /\ fst (run (sample_setup (login_only_sdk JNull forbidden))
                  (CookieSignIn "admin@example.com" "secret") world0) =
         Thrown (prop forbidden "errors")).
Proof.
  split.
  - apply (proj1 (try_catch_logs_error (sample_setup (failing_sdk forbidden))
                    (Crud (UpdateItem (JStr "articles") (JNum 1)
                                      (JObj [("title", JStr "Hello")]) None))
                    world0 eq_refl)
             (useDirectusRest (Some (JBool true)))
             (Request (sdkUpdateItem (JStr "articles") (JNum 1)
                                     (JObj [("title", JStr "Hello")]) JUndefined))
             forbidden); reflexivity.
  - apply (proj1 (proj2 (try_catch_logs_error
                           (sample_setup (login_only_sdk JNull forbidden))
                           (CookieSignIn "admin@example.com" "secret") world0 eq_refl))
             [SdkCalled directus (Login "admin@example.com" "secret" None)]
             directus (Request (withToken (JStr "access") sdkReadMe)) forbidden);
      reflexivity.
Defined.

(** X4.  The wrappers with a try/catch other than createItem log an error
    that carries no message as it is ([console.error(error)]); the
    cookie-based ones then rethrow it, the others return undefined. *)
Lemma error_without_message_logged (s : Setup) (op : Operation) (w : World)
      (c : Client) (call : SdkCall) (e : JsVal) :
  has_try_catch op = true ->
  (forall col item o, op <> Crud (CreateItem col item o)) ->
  first_call s op w = Some (c, call) ->
  sdk_error (the_sdk s) (trace w) c call = Some e ->
  carries_message e = false ->
  events_since w (snd (run s op w)) = [ConsoleError [e]; SdkCalled c call]
  /\ fst (run s op w) = if rethrows op then Thrown e else Returned JUndefined.
Proof.
  intros Htc Hnot Hfirst Herr Hmsg.
  unfold carries_message in Hmsg.
  destruct op as [[]| | | | | | | | | | | ]; simpl in Htc; try discriminate Htc;
    try (exfalso; eapply Hnot; reflexivity);
    simpl in Hfirst;
    try (destruct (truthy (accessTokenCookie w)) eqn:Etok; [|discriminate Hfirst]);
    injection Hfirst as <- <-; sdk_rejected Herr;
    unfold_run; unfold UseDirectusAuth.client in Esdk; simpl in Esdk |- *;
    try rewrite Etok; simpl;
    rewrite Esdk; simpl; rewrite Hmsg; simpl; since; split; reflexivity.
Qed.

(** The second request of signIn, the one that reads the user: its error is
    logged and its nested error list rethrown as well. *)
Lemma signIn_second_request_error (sdk : Sdk) (identifier password : string)
      (w : World) (a : AuthenticationData) (e : JsVal) :
  sdk_login sdk (trace w) directus identifier password None = Returned a ->
  (forall events,
      sdk_request sdk events directus (withToken (access_token a) sdkReadMe) = Thrown e) ->
  carries_message e = true ->
  fst (UseDirectusAuthCookie.signIn sdk identifier password w) = Thrown (prop e "errors")
  /\ console_errors
       (events_since w (snd (UseDirectusAuthCookie.signIn sdk identifier password w))) =
     [[JStr "Couldn't login user"; prop e "errors"]].
Proof.
  intros Hl Hr Hmsg. unfold carries_message in Hmsg.
  unfold_auth; simpl. rewrite Hl; simpl.
  destruct (not_null (expires a)); simpl; rewrite Hr; simpl; rewrite Hmsg; simpl;
    since; split; reflexivity.
Qed.

(** X14.  login: an error thrown by the environment's [readMe] after the
    login call resolved is caught, logged under login's context string and
    swallowed; login returns undefined and [setUser] is not reached. *)
Lemma login_readMe_error (s : Setup) (identifier password : string)
      (options : option LoginOptions) (w w1 : World)
      (c : Client) (call : SdkCall) (e : JsVal) :
  first_call s (AuthLogin identifier password options) w = Some (c, call) ->
  sdk_error (the_sdk s) (trace w) c call = None ->
  user_readMe s (JObj [("useStaticToken", JBool false)]) (emit (SdkCalled c call) w) =
  (Thrown e, w1) ->
  carries_message e = true ->
  run s (AuthLogin identifier password options) w =
  (Returned JUndefined,
   emit (ConsoleError [JStr "Couldn't login user"; prop e "errors"]) w1).
Proof.
  intros Hfirst Hl Hread Hmsg. unfold carries_message in Hmsg.
  simpl in Hfirst. injection Hfirst as <- <-.
  unfold sdk_error in Hl.
  unfold_run. simpl in Hl |- *.
  match type of Hl with
  | match ?r with _ => _ end = None => destruct r as [a|e0]; [|discriminate Hl]
  end.
  simpl.
  match goal with
  | |- context [user_readMe s ?o ?w0] =>
      replace (user_readMe s o w0) with (@Thrown JsVal e, w1) by (symmetry; exact Hread)
  end.
  rewrite Hmsg. reflexivity.
Qed.

(** createItem: an error without a message leaves no event but the call, and
    the wrapper returns undefined. *)
Lemma createItem_silent (sdk : Sdk) (ust col item : JsVal)
      (o : option DirectusReqItemOptions) (w : World) (e : JsVal) :
  sdk_request sdk (trace w)
              (useDirectusRest (Some (js_or (o ?. rio_useStaticToken) ust)))
              (sdkCreateItem col item (o ?. rio_query)) = Thrown e ->
  carries_message e = false ->
  UseDirectusItems.createItem sdk ust col item o w =
  (Returned JUndefined,
   emit (SdkCalled (useDirectusRest (Some (js_or (o ?. rio_useStaticToken) ust)))
                   (Request (sdkCreateItem col item (o ?. rio_query)))) w).
Proof.
  intros He Hmsg. unfold carries_message in Hmsg.
  unfold_items. rewrite He, Hmsg. reflexivity.
Qed.

(** C3 (the code departs from the claim in createItem).  On an SDK that
    rejects with an error value without a message, createItem returns
    undefined and the console stays empty: the error is neither logged nor
    rethrown.  createItems, on the same input, logs it. *)
Theorem createItem_drops_error_without_message :
  let s := sample_setup (failing_sdk errors_only) in
  let item := JObj [("title", JStr "Hello")] in
  (fst (run s (Crud (CreateItem (JStr "articles") item None)) world0) =
   Returned JUndefined
   /\ console_errors
        (events_since world0
           (snd (run s (Crud (CreateItem (JStr "articles") item None)) world0))) = [])
  /\ console_errors
       (events_since world0
          (snd (run s (Crud (CreateItems (JStr "articles") (JArr [item]) None))
                    world0))) = [[errors_only]].
Proof. vm_compute. repeat split. Qed.

(** ** Number of SDK requests *)

Lemma requests_since (w w' : World) (new : list Event) :
  trace w' = new ++ trace w ->
  List.length (sdk_calls (events_since w w')) = List.length (sdk_calls new).
Proof. intros H. rewrite (events_since_app w w' new H). reflexivity. Qed.

(** C5, as stated, fails: a successful signIn makes two SDK requests, the
    login and the request that reads the current user. *)
Lemma signIn_makes_two_requests :
  ~ requests_made (sample_setup (working_sdk (JNum 900)))
      (CookieSignIn "admin@example.com" "secret") world0 <= 1.
Proof. vm_compute. lia. Qed.

(** *** Counting through the monad *)

Lemma try_bind_first {A B} (m : Js A) (k : A -> Js B) (h : JsVal -> Js B) (w : World) :
  try_catch (bind m k) h w =
  match m w with
  | (Returned a, w1) => try_catch (k a) h w1
  | (Thrown e, w1) => h e w1
  end.
Proof. unfold try_catch, bind. destruct (m w) as [[a|e] w1]; reflexivity. Qed.

Lemma within_ret {A} (a : A) : within (ret a) 0 0.
Proof. intros w. exists []. simpl. split; [reflexivity | lia]. Qed.

Lemma within_console (args : list JsVal) : within (console_error args) 0 0.
Proof. intros w. exists [ConsoleError args]. simpl. split; [reflexivity | lia]. Qed.

Lemma within_login (sdk : Sdk) (c : Client) (i p : string) (o : option LoginOptions) :
  within (client_login sdk c i p o) 1 1.
Proof.
  intros w. exists [SdkCalled c (Login i p o)]. simpl. split; [reflexivity | lia].
Qed.

Lemma within_refresh (sdk : Sdk) (c : Client) : within (client_refresh sdk c) 1 1.
Proof. intros w. exists [SdkCalled c Refresh]. simpl. split; [reflexivity | lia]. Qed.

(** [k] may not run: the lower bound is that of [m]. *)
Lemma within_bind {A B} (m : Js A) (k : A -> Js B) (lo1 hi1 lo2 hi2 : nat) :
  within m lo1 hi1 -> (forall a, within (k a) lo2 hi2) ->
  within (bind m k) lo1 (hi1 + hi2).
Proof.
  intros Hm Hk w. unfold bind.
  destruct (Hm w) as [n1 [T1 L1]].
  destruct (m w) as [[a|e] w1]; simpl in T1.
  - destruct (Hk a w1) as [n2 [T2 L2]].
    exists (n2 ++ n1). rewrite T2, T1, app_assoc.
    split; [reflexivity|]. rewrite sdk_calls_app, length_app. lia.
  - exists n1. simpl. split; [assumption | lia].
Qed.

Lemma within_try_catch {A} (body : Js A) (handler : JsVal -> Js A)
      (lo1 hi1 lo2 hi2 : nat) :
  within body lo1 hi1 -> (forall e, within (handler e) lo2 hi2) ->
  within (try_catch body handler) lo1 (hi1 + hi2).
Proof.
  intros Hb Hh w. unfold try_catch.
  destruct (Hb w) as [n1 [T1 L1]].
  destruct (body w) as [[a|e] w1]; simpl in T1.
  - exists n1. simpl. split; [assumption | lia].
  - destruct (Hh e w1) as [n2 [T2 L2]].
    exists (n2 ++ n1). rewrite T2, T1, app_assoc.
    split; [reflexivity|]. rewrite sdk_calls_app, length_app. lia.
Qed.

Lemma within_requests {A} (m : Js A) (lo hi : nat) (w : World) :
  within m lo hi ->
  lo <= List.length (sdk_calls (events_since w (snd (m w)))) <= hi.
Proof.
  intros H. destruct (H w) as [new [T L]].
  rewrite (requests_since _ _ new T). exact L.
Qed.

(** The [catch] block of the wrappers that swallow. *)
Lemma within_swallow (ctx : string) (error : JsVal) :
  within (if truthy error && truthy (prop error "message")
          then console_error [JStr ctx; prop error "errors"] ;; ret JUndefined
          else console_error [error] ;; ret JUndefined) 0 0.
Proof.
  destruct (truthy error && truthy (prop error "message"));
    apply (within_bind _ _ 0 0 0 0); auto using within_console, within_ret.
Qed.

(** login and refreshTokens: the authentication call, then [readMe] and
    [setUser]. *)
Lemma login_requests (s : Setup) (i p : string) (o : option LoginOptions) :
  readMe_one_request s -> setUser_no_request s ->
  within (run s (AuthLogin i p o)) 1 2.
Proof.
  intros Hread Hset. simpl run. unfold UseDirectusAuth.login.
  apply (within_try_catch _ _ 1 2 0 0); [|intros e; apply within_swallow].
  apply (within_bind _ _ 1 1 0 1); [apply within_login|]. intros a.
  apply (within_bind _ _ 0 1 0 0); [apply Hread|]. intros userData.
  apply (within_bind _ _ 0 0 0 0); [apply Hset|]. intros _. apply within_ret.
Qed.

Lemma refreshTokens_requests (s : Setup) :
  readMe_one_request s -> setUser_no_request s ->
  within (run s AuthRefreshTokens) 1 2.
Proof.
  intros Hread Hset. simpl run. unfold UseDirectusAuth.refreshTokens.
  apply (within_try_catch _ _ 1 2 0 0); [|intros e; apply within_swallow].
  apply (within_bind _ _ 1 1 0 1); [apply within_refresh|]. intros a.
  apply (within_bind _ _ 0 1 0 0); [apply Hread|]. intros userData.
  apply (within_bind _ _ 0 0 0 0); [apply Hset|]. intros _. apply within_ret.
Qed.

(** The bounds on the number of SDK requests. *)
Lemma requests_bounded (s : Setup) (op : Operation) (w : World) :
  readMe_one_request s -> setUser_no_request s ->
  min_requests op <= requests_made s op w <= max_requests op.
Proof.
  intros Hread Hset. unfold requests_made.
  destruct op as [c| id pw o | | | | | | | | | | ].
  - simpl run. rewrite perform_sdk_calls. simpl. lia.
  - apply within_requests, login_requests; assumption.
  - apply within_requests, refreshTokens_requests; assumption.
  - unfold_run; simpl; step_sdk; since; simpl; lia.
  - unfold_run; simpl; step_sdk; since; simpl; lia.
  - unfold_run; simpl; step_sdk; since; simpl; lia.
  - unfold_run; simpl; step_sdk; since; simpl; lia.
  - unfold_run; simpl. rewrite events_since_same by reflexivity. simpl. lia.
  - unfold_run; simpl. destruct (truthy (accessTokenCookie w)); simpl;
      step_sdk; since; simpl; lia.
  - unfold_run; simpl. step_sdk;
      try (destruct (not_null (expires a)); simpl); step_sdk; since; simpl; lia.
  - unfold_run; simpl. step_sdk;
      try (destruct (not_null (expires a)); simpl); step_sdk; since; simpl; lia.
  - unfold_run; simpl; step_sdk; since; simpl; lia.
Qed.

Lemma sample_readMe_one_request (sdk : Sdk) : readMe_one_request (sample_setup sdk).
Proof.
  intros o w. simpl.
  exists [SdkCalled (useDirectusRest (Some (JBool false))) (Request sdkReadMe)].
  simpl. split; [reflexivity | lia].
Qed.

Lemma sample_setUser_no_request (sdk : Sdk) : setUser_no_request (sample_setup sdk).
Proof. intros v w. exists []. simpl. split; [reflexivity | lia]. Qed.

(** login and refreshTokens after the authentication call: what [readMe]
    and [setUser] add, then at most one log. *)
Lemma helper_stage (s : Setup) (ctx : string) (result : JsVal) (w1 : World) :
  readMe_one_request s -> setUser_no_request s ->
  exists new,
    trace (snd (try_catch
                  (userData <- user_readMe s (JObj [("useStaticToken", JBool false)]) ;;
                   user_setUser s userData ;;
                   ret result)
                  (fun error =>
                     if truthy error && truthy (prop error "message")
                     then console_error [JStr ctx; prop error "errors"] ;;
                          ret JUndefined
                     else console_error [error] ;; ret JUndefined) w1)) =
    new ++ trace w1
    /\ sdk_calls new = sdk_calls (helper_events s w1).
Proof.
  intros Hread Hset. unfold try_catch, bind, helper_events.
  destruct (Hread (JObj [("useStaticToken", JBool false)]) w1) as [n1 [T1 _]].
  destruct (user_readMe s (JObj [("useStaticToken", JBool false)]) w1) as [[u|e] w2];
    simpl in T1.
  - destruct (Hset u w2) as [n2 [T2 _]].
    assert (T : trace (snd (user_setUser s u w2)) = (n2 ++ n1) ++ trace w1)
      by (rewrite T2, T1, app_assoc; reflexivity).
    rewrite (events_since_app _ _ _ T).
    destruct (user_setUser s u w2) as [[t|e] w3]; simpl in T |- *.
    + exists (n2 ++ n1). split; [exact T | reflexivity].
    + destruct (truthy e && truthy (prop e "message")); simpl;
        eexists (_ :: n2 ++ n1); (split; [rewrite T; reflexivity | reflexivity]).
  - rewrite (events_since_app _ _ _ T1).
    destruct (truthy e && truthy (prop e "message")); simpl;
      eexists (_ :: n1); (split; [rewrite T1; reflexivity | reflexivity]).
Qed.

Ltac unfold_expected :=
  unfold expected_calls, sdk_error, second_call, reads_user, cookie_events.

(** The SDK calls of an invocation are the expected ones. *)
Lemma calls_as_expected (s : Setup) (op : Operation) (w : World) :
  readMe_one_request s -> setUser_no_request s ->
  sdk_calls (events_since w (snd (run s op w))) = expected_calls s op w.
Proof.
  intros Hread Hset.
  destruct op as [c| id pw o | | | | | | | | | | ].
  - simpl run. rewrite perform_sdk_calls. unfold_expected. simpl.
    destruct (sdk_request _ _ _ _); reflexivity.
  - unfold expected_calls, sdk_error, reads_user. simpl first_call.
    simpl run. unfold UseDirectusAuth.login. rewrite try_bind_first.
    unfold client_login, UseDirectusAuth.client. cbv beta iota zeta.
    match goal with
    | |- context [sdk_login ?sd ?t ?c ?i ?p ?o] =>
        destruct (sdk_login sd t c i p o) as [a|e]
    end.
    + match goal with
      | |- context [try_catch ?b ?h (emit ?ev w)] =>
          destruct (helper_stage s "Couldn't login user"
                      (JObj [("access_token", access_token a);
                             ("refresh_token", refresh_token a);
                             ("expires_at", expires_at a);
                             ("expires", expires a)])
                      (emit ev w) Hread Hset) as [new [T E]];
          rewrite (events_since_app w (snd (try_catch b h (emit ev w))) (new ++ [ev]))
            by (etransitivity; [exact T | simpl; rewrite <- app_assoc; reflexivity])
      end.
      rewrite sdk_calls_app, E. reflexivity.
    + destruct (truthy e && truthy (prop e "message")); simpl; since; reflexivity.
  - unfold expected_calls, sdk_error, reads_user. simpl first_call.
    simpl run. unfold UseDirectusAuth.refreshTokens. rewrite try_bind_first.
    unfold client_refresh, UseDirectusAuth.client. cbv beta iota zeta.
    match goal with
    | |- context [sdk_refresh ?sd ?t ?c] => destruct (sdk_refresh sd t c) as [a|e]
    end.
    + match goal with
      | |- context [try_catch ?b ?h (emit ?ev w)] =>
          destruct (helper_stage s "Couldn't refresh tokens"
                      (JObj [("access_token", access_token a);
                             ("refresh_token", refresh_token a);
                             ("expires_at", expires_at a);
                             ("expires", expires a)])
                      (emit ev w) Hread Hset) as [new [T E]];
          rewrite (events_since_app w (snd (try_catch b h (emit ev w))) (new ++ [ev]))
            by (etransitivity; [exact T | simpl; rewrite <- app_assoc; reflexivity])
      end.
      rewrite sdk_calls_app, E. reflexivity.
    + destruct (truthy e && truthy (prop e "message")); simpl; since; reflexivity.
  - unfold_expected; unfold_run; simpl; step_sdk; since; reflexivity.
  - unfold_expected; unfold_run; simpl; step_sdk; since; reflexivity.
  - unfold_expected; unfold_run; simpl; step_sdk; since; reflexivity.
  - unfold_expected; unfold_run; simpl; step_sdk; since; reflexivity.
  - unfold_expected; unfold_run; simpl. rewrite events_since_same by reflexivity.
    reflexivity.
  - unfold_expected; unfold_run; simpl.
    destruct (truthy (accessTokenCookie w)); simpl; step_sdk; since; reflexivity.
  - unfold_expected; unfold_run; simpl. step_sdk;
      try (destruct (not_null (expires a)); simpl); step_sdk; since; reflexivity.
  - unfold_expected; unfold_run; simpl. step_sdk;
      try (destruct (not_null (expires a)); simpl); step_sdk; since; reflexivity.
  - unfold_expected; unfold_run; simpl; step_sdk; since; reflexivity.
Qed.

(** C5, amended.  Provided the environment's [readMe] makes at most one SDK
    request and [setUser] none, the SDK calls of an invocation are exactly
    [expected_calls]: the one call built from the arguments for the CRUD
    wrappers (a read wrapper: per run of its handler), logout, signOut,
    passwordRequest, passwordReset and inviteUser; none for setUser; the
    readMe request for fetchUser when the access-token cookie is truthy and
    none otherwise; for signIn and the cookie-based refreshTokens the
    authentication call and, when it resolves, the readMe request with the
    new access token as a second call; for login and refreshTokens the
    authentication call and, when it resolves, the calls of [readMe] and
    [setUser].  So an invocation makes at least [min_requests] and at most
    [max_requests] (two) requests, and every operation with a try/catch
    catches and logs the failures inside it. *)
Theorem requests_per_invocation (s : Setup) (op : Operation) (w : World) :
  readMe_one_request s -> setUser_no_request s ->
  sdk_calls (events_since w (snd (run s op w))) = expected_calls s op w
  /\ min_requests op <= requests_made s op w <= max_requests op
  /\ (has_try_catch op = true -> all_errors_caught s op w).
Proof.
  intros Hread Hset. split; [|split].
  - apply calls_as_expected; assumption.
  - apply requests_bounded; assumption.
  - intros Htc. split; [|split; [|split]].
    + apply first_call_error_caught. exact Htc.
    + apply second_call_error_caught.
    + apply helper_error_is_caught.
    + apply any_error_is_caught. exact Htc.
Qed.

(** Two instances: login, whose second request is the one of [readMe], and
    signIn. *)
Lemma requests_per_invocation_witness :
  (sdk_calls
     (events_since world0
        (snd (run (sample_setup (working_sdk (JNum 900)))
                  (AuthLogin "admin@example.com" "secret" None) world0))) =
   [(useDirectusRest (Some (JBool false)), Request sdkReadMe);
    (useDirectusRest (Some (JBool false)),
     Login "admin@example.com" "secret"
           (Some {| lo_otp := JUndefined; lo_mode := JStr "json" |}))]
   /\ 1 <= requests_made (sample_setup (working_sdk (JNum 900)))
             (AuthLogin "admin@example.com" "secret" None) world0 <= 2)
  /\ sdk_calls
       (events_since world0
          (snd (run (sample_setup (working_sdk (JNum 900)))
                    (CookieSignIn "admin@example.com" "secret") world0))) =
     [(directus, Request (withToken (JStr "access") sdkReadMe));
      (directus, Login "admin@example.com" "secret" None)].
Proof.
  split.
  - destruct (requests_per_invocation (sample_setup (working_sdk (JNum 900)))
                (AuthLogin "admin@example.com" "secret" None) world0
                (sample_readMe_one_request _) (sample_setUser_no_request _))
      as [Hc [Hb _]].
    split; [rewrite Hc; reflexivity | exact Hb].
  - rewrite (proj1 (requests_per_invocation (sample_setup (working_sdk (JNum 900)))
                      (CookieSignIn "admin@example.com" "secret") world0
                      (sample_readMe_one_request _) (sample_setUser_no_request _))).
    reflexivity.
Defined.

(** ** Logout *)

(** C8.  logout and signOut: when the SDK's logout rejects, the user cell
    and the two token cookies are as before; when it resolves, logout has set
    the user to undefined, and signOut has set the cookies and the user to
    null, after the SDK call. *)
Theorem logout_atomic (sdk : Sdk) (w : World) :
  (forall e,
      sdk_logout sdk (trace w) (useDirectusRest (Some (JBool false))) = Thrown e ->
      session (snd (UseDirectusAuth.logout sdk w)) = session w)
  /\ (sdk_logout sdk (trace w) (useDirectusRest (Some (JBool false))) = Returned tt ->
      session (snd (UseDirectusAuth.logout sdk w)) =
      (JUndefined, accessTokenCookie w, refreshTokenCookie w))
  /\ (forall e,
         sdk_logout sdk (trace w) directus = Thrown e ->
         session (snd (UseDirectusAuthCookie.signOut sdk w)) = session w
         /\ cookie_writes (events_since w (snd (UseDirectusAuthCookie.signOut sdk w))) = [])
  /\ (sdk_logout sdk (trace w) directus = Returned tt ->
      session (snd (UseDirectusAuthCookie.signOut sdk w)) = (JNull, JNull, JNull)
      /\ events_since w (snd (UseDirectusAuthCookie.signOut sdk w)) =
         [CookieSet RefreshTokenCookie JUndefined JNull;
          CookieSet AccessTokenCookie JUndefined JNull;
          SdkCalled directus Logout]).
Proof.
  repeat split; intros; unfold_auth; simpl;
    match goal with H : sdk_logout _ _ _ = _ |- _ => rewrite H end; simpl;
    step_sdk; since; reflexivity.
Qed.

Lemma logout_atomic_witness :
  session (snd (UseDirectusAuth.logout (failing_sdk forbidden) signed_in)) =
  session signed_in
  /\ session (snd (UseDirectusAuthCookie.signOut (failing_sdk forbidden) signed_in)) =
     session signed_in.
Proof.
  destruct (logout_atomic (failing_sdk forbidden) signed_in) as [H1 [_ [H2 _]]].
  split.
  - apply (H1 forbidden). reflexivity.
  - apply (H2 forbidden). reflexivity.
Defined.

(** ** signIn and the token cookies *)

(** C9.  A signIn that returns got an authentication response from the SDK;
    it wrote the refresh-token and the access-token cookie (with the
    response's expires as max-age) if and only if the response's expires is
    not null; when expires is null the cookies are as before, and the result
    carries the response's access and refresh tokens either way.  (The
    writes are listed most recent first.) *)
Theorem signIn_cookies (sdk : Sdk) (identifier password : string)
        (w : World) (r : JsVal) (w' : World) :
  UseDirectusAuthCookie.signIn sdk identifier password w = (Returned r, w') ->
  exists a,
    sdk_login sdk (trace w) directus identifier password None = Returned a
    /\ cookie_writes (events_since w w') =
       (if not_null (expires a)
        then [(AccessTokenCookie, expires a, access_token a);
              (RefreshTokenCookie, expires a, refresh_token a)]
        else [])
    /\ (cookie_writes (events_since w w') <> [] <-> expires a <> JNull)
    /\ (expires a = JNull ->
        accessTokenCookie w' = accessTokenCookie w
        /\ refreshTokenCookie w' = refreshTokenCookie w)
    /\ (expires a <> JNull ->
        accessTokenCookie w' = access_token a
        /\ refreshTokenCookie w' = refresh_token a)
    /\ prop r "accessToken" = access_token a
    /\ prop r "refreshToken" = refresh_token a.
Proof.
  unfold_auth. simpl.
  destruct (sdk_login sdk (trace w) directus identifier password None) as [a|e] eqn:El;
    simpl.
  - intros H. exists a. split; [reflexivity|].
    destruct (expires a) eqn:Eexp; simpl in H |- *;
      match type of H with
      | context [sdk_request ?s ?t ?c ?cmd] =>
          destruct (sdk_request s t c cmd) as [res|e] eqn:Er
      end; simpl in H;
      try (destruct (truthy e && truthy (prop e "message")); simpl in H; discriminate H);
      injection H as <- <-; since; simpl;
      repeat split; intros; try reflexivity; try congruence; try discriminate.
  - destruct (truthy e && truthy (prop e "message")); simpl; intros H; discriminate H.
Qed.

Lemma signIn_cookies_witness :
  exists a,
    sdk_login (working_sdk JNull) (trace world0) directus
              "admin@example.com" "secret" None = Returned a
    /\ cookie_writes
         (events_since world0
            (snd (UseDirectusAuthCookie.signIn (working_sdk JNull)
                    "admin@example.com" "secret" world0))) = []
    /\ prop (JObj [("accessToken", JStr "access");
                   ("refreshToken", JStr "refresh");
                   ("expiresAt", JNum 1700000900);
                   ("expires", JNull)]) "accessToken" = access_token a.
Proof.
  destruct (signIn_cookies (working_sdk JNull) "admin@example.com" "secret" world0
              (JObj [("accessToken", JStr "access");
                     ("refreshToken", JStr "refresh");
                     ("expiresAt", JNum 1700000900);
                     ("expires", JNull)])
              (snd (UseDirectusAuthCookie.signIn (working_sdk JNull)
                      "admin@example.com" "secret" world0))
              eq_refl) as [a [Hl [Hw [_ [_ [_ [Ha _]]]]]]].
  exists a. split; [exact Hl|]. split; [|exact Ha].
  rewrite Hw. injection Hl as <-. reflexivity.
Defined.

(** * Further properties of the wrappers *)

(** ** Outcomes *)

Lemma try_catch_returns {A} (body : Js A) (handler : JsVal -> Js A) (w : World) :
  (forall e w1, exists v, fst (handler e w1) = Returned v) ->
  exists v, fst (try_catch body handler w) = Returned v.
Proof.
  intros Hh. unfold try_catch. destruct (body w) as [[a|e] w1].
  - exists a. reflexivity.
  - apply Hh.
Qed.

Lemma swallow_returns (ctx : string) (e : JsVal) (w : World) :
  exists v,
    fst ((if truthy e && truthy (prop e "message")
          then console_error [JStr ctx; prop e "errors"] ;; ret JUndefined
          else console_error [e] ;; ret JUndefined) w) = Returned v.
Proof.
  destruct (truthy e && truthy (prop e "message")); exists JUndefined; reflexivity.
Qed.

(** X1.  The wrappers whose [catch] does not rethrow never reject: the
    useDirectusItems wrappers with a try/catch, login, refreshTokens, logout,
    passwordRequest, passwordReset and inviteUser always return, whatever the
    SDK, [readMe] and [setUser] do. *)
Theorem swallowing_never_throws (s : Setup) (op : Operation) (w : World) :
  has_try_catch op = true -> rethrows op = false ->
  exists v, fst (run s op w) = Returned v.
Proof.
  intros Htc Hre.
  destruct op as [[]| | | | | | | | | | | ]; simpl in Htc, Hre;
    try discriminate Htc; try discriminate Hre; simpl run;
    unfold perform, UseDirectusItems.createItem, UseDirectusItems.createItems,
      UseDirectusItems.updateItem, UseDirectusItems.updateItems,
      UseDirectusItems.updateSingleton, UseDirectusItems.deleteItem,
      UseDirectusItems.deleteItems, UseDirectusAuth.login,
      UseDirectusAuth.refreshTokens, UseDirectusAuth.logout,
      UseDirectusAuth.passwordRequest, UseDirectusAuth.passwordReset,
      UseDirectusAuth.inviteUser;
    apply try_catch_returns; intros e w1;
    try apply swallow_returns.
  destruct (truthy e && truthy (prop e "message")); exists JUndefined; reflexivity.
Qed.

Lemma swallowing_never_throws_witness :
  exists v,
    fst (run (sample_setup (failing_sdk forbidden))
             (AuthLogin "admin@example.com" "secret" None) world0) = Returned v.
Proof.
  apply (swallowing_never_throws (sample_setup (failing_sdk forbidden))
           (AuthLogin "admin@example.com" "secret" None) world0); reflexivity.
Defined.

(** X2.  When the SDK resolves the request, each of the ten CRUD wrappers
    (a read wrapper: the handler it hands over) returns the SDK's answer
    unchanged, and the call is the only event. *)
Theorem perform_success (sdk : Sdk) (hash : JsVal -> string) (ust : JsVal)
        (c : CrudCall) (w : World) (r : JsVal) :
  sdk_request sdk (trace w) (useDirectusRest (Some (js_or (per_call_flag c) ust)))
              (forwarded c w) = Returned r ->
  perform sdk hash ust c w =
  (Returned r,
   emit (SdkCalled (useDirectusRest (Some (js_or (per_call_flag c) ust)))
                   (Request (forwarded c w))) w).
Proof.
  intros H. destruct c; simpl in H; unfold_items; simpl; rewrite H; reflexivity.
Qed.

Lemma perform_success_witness :
  perform (working_sdk JNull) sample_hash JUndefined
          (ReadItem (Cell 0) (Cell 1) None)
          (world_with_refs (JStr "articles") (JNum 7)) =
  (Returned (JObj [("id", JStr "u1")]),
   emit (SdkCalled (useDirectusRest (Some JUndefined))
                   (Request (sdkReadItem (JStr "articles") (JNum 7) JUndefined)))
        (world_with_refs (JStr "articles") (JNum 7))).
Proof.
  apply (perform_success (working_sdk JNull) sample_hash JUndefined
           (ReadItem (Cell 0) (Cell 1) None)
           (world_with_refs (JStr "articles") (JNum 7))
           (JObj [("id", JStr "u1")])).
  reflexivity.
Defined.

(** X3.  passwordRequest, passwordReset and inviteUser make one request, on
    the client resolved with [options.useStaticToken] ([false] when it is
    undefined), built from the fields of [options] in place; they return
    undefined whether the SDK resolved or rejected. *)
Theorem auth_requests_forwarded (sdk : Sdk) (w : World) :
  (forall o,
      fst (UseDirectusAuth.passwordRequest sdk o w) = Returned JUndefined
      /\ sdk_calls (events_since w (snd (UseDirectusAuth.passwordRequest sdk o w))) =
         [(UseDirectusAuth.client (pr_useStaticToken o),
           Request (sdkPasswordRequest (pr_email o) (pr_reset_url o)))])
  /\ (forall o,
         fst (UseDirectusAuth.passwordReset sdk o w) = Returned JUndefined
         /\ sdk_calls (events_since w (snd (UseDirectusAuth.passwordReset sdk o w))) =
            [(UseDirectusAuth.client (ps_useStaticToken o),
              Request (sdkPasswordReset (ps_token o) (ps_password o)))])
  /\ (forall o,
         fst (UseDirectusAuth.inviteUser sdk o w) = Returned JUndefined
         /\ sdk_calls (events_since w (snd (UseDirectusAuth.inviteUser sdk o w))) =
            [(UseDirectusAuth.client (iu_useStaticToken o),
              Request (sdkInviteUser (iu_email o) (iu_role o) (iu_invite_url o)))])
  /\ UseDirectusAuth.client JUndefined = useDirectusRest (Some (JBool false))
  /\ (forall flag, flag <> JUndefined ->
                   UseDirectusAuth.client flag = useDirectusRest (Some flag)).
Proof.
  repeat split; try (intros; unfold UseDirectusAuth.passwordRequest,
    UseDirectusAuth.passwordReset, UseDirectusAuth.inviteUser,
    try_catch, bind, ret, request, console_error; simpl; step_sdk; since; reflexivity).
  intros flag Hf. destruct flag; try reflexivity. exfalso; apply Hf; reflexivity.
Qed.

Lemma auth_requests_forwarded_witness :
  UseDirectusAuth.client (JStr "static-token") =
  useDirectusRest (Some (JStr "static-token")).
Proof.
  apply (proj2 (proj2 (proj2 (proj2 (auth_requests_forwarded (working_sdk JNull) world0))))).
  discriminate.
Defined.

(** An instance of [error_without_message_logged]: createItems with an error
    value that has no message. *)
Lemma error_without_message_logged_witness :
  events_since world0
    (snd (run (sample_setup (failing_sdk errors_only))
              (Crud (CreateItems (JStr "articles") (JArr []) None)) world0)) =
  [ConsoleError [errors_only];
   SdkCalled (useDirectusRest (Some (JBool true)))
             (Request (sdkCreateItems (JStr "articles") (JArr []) JUndefined))]
  /\ fst (run (sample_setup (failing_sdk errors_only))
              (Crud (CreateItems (JStr "articles") (JArr []) None)) world0) =
     Returned JUndefined.
Proof.
  apply (error_without_message_logged (sample_setup (failing_sdk errors_only))
           (Crud (CreateItems (JStr "articles") (JArr []) None)) world0
           (useDirectusRest (Some (JBool true)))
           (Request (sdkCreateItems (JStr "articles") (JArr []) JUndefined))
           errors_only); try reflexivity.
  intros col item o H. discriminate H.
Defined.

(** X5.  The cookie-based fetchUser, signIn, refreshTokens and signOut never
    reject silently: when one of them throws, the last thing it did was a
    [console.error], and the value thrown is the last argument of that log
    (the nested error list after the context string, or the raw error). *)
Theorem rethrow_is_logged (s : Setup) (op : Operation) (w : World) (x : JsVal) :
  rethrows op = true ->
  fst (run s op w) = Thrown x ->
  exists args rest,
    trace (snd (run s op w)) = ConsoleError args :: rest
    /\ last args JUndefined = x.
Proof.
  intros Hre.
  destruct op as [c| | | | | | | | | | | ]; simpl in Hre; try discriminate Hre;
    unfold_run; simpl;
    try (destruct (truthy (accessTokenCookie w)); simpl);
    step_sdk;
    try (destruct (not_null (expires a)); simpl); step_sdk;
    intros H; try discriminate H; injection H as <-;
    eexists; eexists; split; reflexivity.
Qed.

Lemma rethrow_is_logged_witness :
  exists args rest,
    trace (snd (run (sample_setup (failing_sdk forbidden)) CookieSignOut signed_in)) =
    ConsoleError args :: rest
    /\ last args JUndefined = prop forbidden "errors".
Proof.
  apply (rethrow_is_logged (sample_setup (failing_sdk forbidden)) CookieSignOut
           signed_in (prop forbidden "errors")); reflexivity.
Defined.

(** X6.  An operation whose first SDK call rejects changes neither the user
    cell, nor the token cookies, nor the caller's refs: a failed login,
    refresh, logout or request leaves the session as it was. *)
Theorem rejected_call_keeps_state (s : Setup) (op : Operation) (w : World)
        (c : Client) (call : SdkCall) (e : JsVal) :
  first_call s op w = Some (c, call) ->
  sdk_error (the_sdk s) (trace w) c call = Some e ->
  session (snd (run s op w)) = session w
  /\ cells (snd (run s op w)) = cells w.
Proof.
  intros Hfirst Herr.
  destruct op as [[]| | | | | | | | | | | ];
    simpl in Hfirst; try discriminate Hfirst;
    try (destruct (truthy (accessTokenCookie w)) eqn:Etok; [|discriminate Hfirst]);
    injection Hfirst as <- <-; sdk_rejected Herr;
    unfold_run; unfold UseDirectusAuth.client in Esdk; simpl in Esdk |- *;
    try rewrite Etok; simpl;
    try rewrite Esdk; simpl; step_sdk; split; reflexivity.
Qed.

Lemma rejected_call_keeps_state_witness :
  session (snd (run (sample_setup (failing_sdk forbidden))
                    (CookieSignIn "admin@example.com" "wrong") signed_in)) =
  session signed_in
  /\ cells (snd (run (sample_setup (failing_sdk forbidden))
                     (CookieSignIn "admin@example.com" "wrong") signed_in)) =
     cells signed_in.
Proof.
  apply (rejected_call_keeps_state (sample_setup (failing_sdk forbidden))
           (CookieSignIn "admin@example.com" "wrong") signed_in
           directus (Login "admin@example.com" "wrong" None) forbidden);
    reflexivity.
Defined.

(** ** signIn and refreshTokens of the cookie-based composable *)

(** X7.  signIn is not atomic: when the login resolves with a non-null
    expires and the request that reads the user then rejects, signIn throws,
    the user cell is as before, and the two cookies already hold the new
    tokens. *)
Theorem signIn_keeps_cookies_on_failure (sdk : Sdk) (identifier password : string)
        (w : World) (a : AuthenticationData) (e : JsVal) :
  sdk_login sdk (trace w) directus identifier password None = Returned a ->
  not_null (expires a) = true ->
  sdk_request sdk
    (CookieSet AccessTokenCookie (expires a) (access_token a)
     :: CookieSet RefreshTokenCookie (expires a) (refresh_token a)
     :: SdkCalled directus (Login identifier password None) :: trace w)
    directus (withToken (access_token a) sdkReadMe) = Thrown e ->
  (exists x, fst (UseDirectusAuthCookie.signIn sdk identifier password w) = Thrown x)
  /\ session (snd (UseDirectusAuthCookie.signIn sdk identifier password w)) =
     (user w, access_token a, refresh_token a).
Proof.
  intros Hl Hexp Hr. unfold_auth; simpl. rewrite Hl; simpl. rewrite Hexp; simpl.
  rewrite Hr; simpl.
  destruct (truthy e && truthy (prop e "message")); simpl;
    (split; [eexists; reflexivity | reflexivity]).
Qed.

Lemma signIn_keeps_cookies_on_failure_witness :
  session (snd (UseDirectusAuthCookie.signIn (login_only_sdk (JNum 900) forbidden)
                  "admin@example.com" "secret" world0)) =
  (JUndefined, JStr "access", JStr "refresh").
Proof.
  apply (proj2 (signIn_keeps_cookies_on_failure (login_only_sdk (JNum 900) forbidden)
                  "admin@example.com" "secret" world0 (tokens (JNum 900)) forbidden
                  eq_refl eq_refl eq_refl)).
Defined.

(** X8.  A signIn that returns made two calls on the [directus] client, the
    login and then the readMe request carrying the access token of the
    response, with the cookie writes in between; the user cell holds what
    that very request resolved with, and the result carries the response's
    expires and expires_at. *)
Theorem signIn_success (sdk : Sdk) (identifier password : string)
        (w : World) (r : JsVal) (w' : World) :
  UseDirectusAuthCookie.signIn sdk identifier password w = (Returned r, w') ->
  exists a res,
    sdk_login sdk (trace w) directus identifier password None = Returned a
    /\ sdk_request sdk
         (cookie_events a ++ SdkCalled directus (Login identifier password None) :: trace w)
         directus (withToken (access_token a) sdkReadMe) = Returned res
    /\ trace w' =
       SdkCalled directus (Request (withToken (access_token a) sdkReadMe))
       :: cookie_events a ++ SdkCalled directus (Login identifier password None) :: trace w
    /\ sdk_calls (events_since w w') =
       [(directus, Request (withToken (access_token a) sdkReadMe));
        (directus, Login identifier password None)]
    /\ console_errors (events_since w w') = []
    /\ user w' = res
    /\ cells w' = cells w
    /\ prop r "expires" = expires a
    /\ prop r "expiresAt" = expires_at a.
Proof.
  unfold_auth. simpl.
  destruct (sdk_login sdk (trace w) directus identifier password None) as [a|e] eqn:El;
    simpl.
  - intros H. exists a. unfold cookie_events.
    destruct (not_null (expires a)) eqn:Eexp; simpl in H |- *;
      match type of H with
      | context [sdk_request ?s ?t ?c ?cmd] =>
          destruct (sdk_request s t c cmd) as [res|e] eqn:Er; simpl in H;
          [ exists res
          | destruct (truthy e && truthy (prop e "message")); simpl in H; discriminate H ]
      end;
      injection H as <- <-; since; simpl; repeat split; assumption.
  - destruct (truthy e && truthy (prop e "message")); simpl; intros H; discriminate H.
Qed.

Lemma signIn_success_witness :
  exists a res,
    sdk_login (working_sdk (JNum 900)) (trace world0) directus
              "admin@example.com" "secret" None = Returned a
    /\ sdk_request (working_sdk (JNum 900))
         (cookie_events a
            ++ SdkCalled directus (Login "admin@example.com" "secret" None)
            :: trace world0)
         directus (withToken (access_token a) sdkReadMe) = Returned res
    /\ user (snd (UseDirectusAuthCookie.signIn (working_sdk (JNum 900))
                    "admin@example.com" "secret" world0)) = res.
Proof.
  destruct (signIn_success (working_sdk (JNum 900)) "admin@example.com" "secret" world0
              (JObj [("accessToken", JStr "access");
                     ("refreshToken", JStr "refresh");
                     ("expiresAt", JNum 1700000900);
                     ("expires", JNum 900)])
              (snd (UseDirectusAuthCookie.signIn (working_sdk (JNum 900))
                      "admin@example.com" "secret" world0))
              eq_refl) as [a [res [Hl [Hr [_ [_ [_ [Hu _]]]]]]]].
  exists a, res. repeat split; assumption.
Defined.

(** X9.  The cookie-based refreshTokens, when it returns: it called refresh
    and then the readMe request with the new access token; it wrote the two
    cookies if and only if the response's expires is not null; the user cell
    holds what that very request resolved with and the result carries the
    response's tokens.  (Writes and calls are listed most recent first.) *)
Theorem cookie_refreshTokens_success (sdk : Sdk) (w : World) (r : JsVal) (w' : World) :
  UseDirectusAuthCookie.refreshTokens sdk w = (Returned r, w') ->
  exists a res,
    sdk_refresh sdk (trace w) directus = Returned a
    /\ sdk_request sdk (cookie_events a ++ SdkCalled directus Refresh :: trace w)
                   directus (withToken (access_token a) sdkReadMe) = Returned res
    /\ trace w' =
       SdkCalled directus (Request (withToken (access_token a) sdkReadMe))
       :: cookie_events a ++ SdkCalled directus Refresh :: trace w
    /\ sdk_calls (events_since w w') =
       [(directus, Request (withToken (access_token a) sdkReadMe)); (directus, Refresh)]
    /\ cookie_writes (events_since w w') =
       (if not_null (expires a)
        then [(AccessTokenCookie, expires a, access_token a);
              (RefreshTokenCookie, expires a, refresh_token a)]
        else [])
    /\ (not_null (expires a) = false ->
        accessTokenCookie w' = accessTokenCookie w
        /\ refreshTokenCookie w' = refreshTokenCookie w)
    /\ user w' = res
    /\ prop r "accessToken" = access_token a
    /\ prop r "refreshToken" = refresh_token a.
Proof.
  unfold_auth. simpl.
  destruct (sdk_refresh sdk (trace w) directus) as [a|e] eqn:El; simpl.
  - intros H. exists a. unfold cookie_events.
    destruct (not_null (expires a)) eqn:Eexp; simpl in H |- *;
      match type of H with
      | context [sdk_request ?s ?t ?c ?cmd] =>
          destruct (sdk_request s t c cmd) as [res|e] eqn:Er; simpl in H;
          [ exists res
          | destruct (truthy e && truthy (prop e "message")); simpl in H; discriminate H ]
      end;
      injection H as <- <-; since; simpl;
      repeat split; intros; try assumption; try reflexivity; try discriminate.
  - destruct (truthy e && truthy (prop e "message")); simpl; intros H; discriminate H.
Qed.

Lemma cookie_refreshTokens_success_witness :
  exists a res,
    sdk_refresh (working_sdk (JNum 900)) (trace signed_in) directus = Returned a
    /\ sdk_request (working_sdk (JNum 900))
         (cookie_events a ++ SdkCalled directus Refresh :: trace signed_in)
         directus (withToken (access_token a) sdkReadMe) = Returned res
    /\ user (snd (UseDirectusAuthCookie.refreshTokens (working_sdk (JNum 900)) signed_in)) =
       res
    /\ cookie_writes
         (events_since signed_in
            (snd (UseDirectusAuthCookie.refreshTokens (working_sdk (JNum 900)) signed_in))) =
       [(AccessTokenCookie, JNum 900, JStr "access");
        (RefreshTokenCookie, JNum 900, JStr "refresh")].
Proof.
  destruct (cookie_refreshTokens_success (working_sdk (JNum 900)) signed_in
              (JObj [("accessToken", JStr "access");
                     ("refreshToken", JStr "refresh");
                     ("expiresAt", JNum 1700000900);
                     ("expires", JNum 900)])
              (snd (UseDirectusAuthCookie.refreshTokens (working_sdk (JNum 900)) signed_in))
              eq_refl) as [a [res [Hl [Hr [_ [_ [Hw [_ [Hu _]]]]]]]]].
  exists a, res. split; [exact Hl|]. split; [exact Hr|]. split; [exact Hu|].
  rewrite Hw. injection Hl as <-. reflexivity.
Defined.

(** ** fetchUser *)

(** X10.  fetchUser contacts the backend only when the access-token cookie
    is truthy.  Without it, nothing happens and the current user comes back;
    with it, when the readMe request resolves, the user cell is set to the
    answer, which is returned, and the cookies are untouched. *)
Theorem fetchUser_cases (sdk : Sdk) (w : World) :
  (truthy (accessTokenCookie w) = false ->
   UseDirectusAuthCookie.fetchUser sdk w = (Returned (user w), w))
  /\ (forall res,
         truthy (accessTokenCookie w) = true ->
         sdk_request sdk (trace w) (useDirectusRest None) sdkReadMe = Returned res ->
         UseDirectusAuthCookie.fetchUser sdk w =
         (Returned res,
          {| user := res;
             accessTokenCookie := accessTokenCookie w;
             refreshTokenCookie := refreshTokenCookie w;
             cells := cells w;
             trace := SdkCalled (useDirectusRest None) (Request sdkReadMe) :: trace w |})).
Proof.
  split.
  - intros Ht. unfold_auth. simpl. rewrite Ht. simpl. destruct w; reflexivity.
  - intros res Ht Hr. unfold_auth. simpl. rewrite Ht. simpl. rewrite Hr. reflexivity.
Qed.

Lemma fetchUser_cases_witness :
  UseDirectusAuthCookie.fetchUser (working_sdk JNull) world0 = (Returned JUndefined, world0)
  /\ fst (UseDirectusAuthCookie.fetchUser (working_sdk JNull) signed_in) =
     Returned (JObj [("id", JStr "u1")]).
Proof.
  split.
  - apply (proj1 (fetchUser_cases (working_sdk JNull) world0)). reflexivity.
  - rewrite (proj2 (fetchUser_cases (working_sdk JNull) signed_in)
               (JObj [("id", JStr "u1")]) eq_refl eq_refl).
    reflexivity.
Defined.

(** X11.  After a signOut that succeeded, fetchUser makes no request: the
    access-token cookie is null, and fetchUser returns the null user. *)
Theorem signOut_then_fetchUser (sdk : Sdk) (w : World) :
  sdk_logout sdk (trace w) directus = Returned tt ->
  UseDirectusAuthCookie.fetchUser sdk (snd (UseDirectusAuthCookie.signOut sdk w)) =
  (Returned JNull, snd (UseDirectusAuthCookie.signOut sdk w)).
Proof.
  intros H. unfold_auth. simpl. rewrite H. reflexivity.
Qed.

Lemma signOut_then_fetchUser_witness :
  UseDirectusAuthCookie.fetchUser (working_sdk JNull)
    (snd (UseDirectusAuthCookie.signOut (working_sdk JNull) signed_in)) =
  (Returned JNull, snd (UseDirectusAuthCookie.signOut (working_sdk JNull) signed_in)).
Proof.
  apply (signOut_then_fetchUser (working_sdk JNull) signed_in). reflexivity.
Defined.

(** X12.  With a null expires the tokens are not persisted: after such a
    signIn from a world without access-token cookie, fetchUser makes no
    request and returns the user that signIn stored. *)
Theorem signIn_null_expires_then_fetchUser (sdk : Sdk) (identifier password : string)
        (w : World) (a : AuthenticationData) (r : JsVal) (w' : World) :
  sdk_login sdk (trace w) directus identifier password None = Returned a ->
  expires a = JNull ->
  truthy (accessTokenCookie w) = false ->
  UseDirectusAuthCookie.signIn sdk identifier password w = (Returned r, w') ->
  UseDirectusAuthCookie.fetchUser sdk w' = (Returned (user w'), w').
Proof.
  intros Hl Hexp Ht. unfold_auth. simpl. rewrite Hl. simpl. rewrite Hexp. simpl.
  step_sdk; intros H; try discriminate H.
  injection H as <- <-. simpl. rewrite Ht. reflexivity.
Qed.

Lemma signIn_null_expires_then_fetchUser_witness :
  UseDirectusAuthCookie.fetchUser (working_sdk JNull)
    (snd (UseDirectusAuthCookie.signIn (working_sdk JNull)
            "admin@example.com" "secret" world0)) =
  (Returned (JObj [("id", JStr "u1")]),
   snd (UseDirectusAuthCookie.signIn (working_sdk JNull)
          "admin@example.com" "secret" world0)).
Proof.
  apply (signIn_null_expires_then_fetchUser (working_sdk JNull)
           "admin@example.com" "secret" world0 (tokens JNull)
           (JObj [("accessToken", JStr "access");
                  ("refreshToken", JStr "refresh");
                  ("expiresAt", JNum 1700000900);
                  ("expires", JNull)])
           (snd (UseDirectusAuthCookie.signIn (working_sdk JNull)
                   "admin@example.com" "secret" world0)));
    reflexivity.
Defined.

(** ** login *)

Lemma js_nullish_if (a b : JsVal) : js_nullish a b = if nullish a then b else a.
Proof. destruct a; reflexivity. Qed.

(** X13.  login always starts with one login call on the client resolved
    with [false], with the caller's identifier and password; the mode handed
    to the SDK is the caller's [options.mode] unless that is null or
    undefined, and then it is json when [useNuxtCookies] is truthy and cookie
    otherwise; [options.otp] is handed over unless it is null.  (Given that
    [readMe] and [setUser] only add to the trace.) *)
Theorem login_call_params (s : Setup) (identifier password : string)
        (options : option LoginOptions) (w : World) :
  readMe_one_request s -> setUser_no_request s ->
  exists later,
    events_since w (snd (run s (AuthLogin identifier password options) w)) =
    later ++
    [SdkCalled (useDirectusRest (Some (JBool false)))
       (Login identifier password
          (Some {| lo_otp := if nullish (options ?. lo_otp)
                             then JUndefined else options ?. lo_otp;
                   lo_mode := if nullish (options ?. lo_mode)
                              then (if truthy (config_useNuxtCookies s)
                                    then JStr "json" else JStr "cookie")
                              else options ?. lo_mode |}))]
    /\ List.length (sdk_calls later) <= 1.
Proof.
  intros Hread Hset. simpl run. unfold UseDirectusAuth.login.
  rewrite try_bind_first. unfold client_login, UseDirectusAuth.client, defu.
  rewrite !js_nullish_if. simpl.
  match goal with
  | |- context [sdk_login ?sd ?t ?c ?i ?p ?o] =>
      destruct (sdk_login sd t c i p o) as [a|e]
  end.
  - match goal with
    | |- context [try_catch ?body ?h (emit ?ev w)] =>
        destruct (within_try_catch body h 0 1 0 0) with (w := emit ev w)
          as [later [T L]]
    end.
    + apply (within_bind _ _ 0 1 0 0); [apply Hread|]. intros userData.
      apply (within_bind _ _ 0 0 0 0); [apply Hset|]. intros _. apply within_ret.
    + intros e. apply within_swallow.
    + exists later. split; [|lia].
      apply events_since_app. rewrite T. simpl. rewrite <- app_assoc. reflexivity.
  - destruct (truthy e && truthy (prop e "message")).
    + exists [ConsoleError [JStr "Couldn't login user"; prop e "errors"]].
      split; [|simpl; lia]. apply events_since_app. reflexivity.
    + exists [ConsoleError [e]].
      split; [|simpl; lia]. apply events_since_app. reflexivity.
Qed.

Lemma login_call_params_witness :
  exists later,
    events_since world0
      (snd (run (sample_setup (working_sdk (JNum 900)))
                (AuthLogin "admin@example.com" "secret"
                           (Some {| lo_otp := JStr "123456"; lo_mode := JNull |}))
                world0)) =
    later ++
    [SdkCalled (useDirectusRest (Some (JBool false)))
       (Login "admin@example.com" "secret"
          (Some {| lo_otp := JStr "123456"; lo_mode := JStr "json" |}))]
    /\ List.length (sdk_calls later) <= 1.
Proof.
  apply (login_call_params (sample_setup (working_sdk (JNum 900)))
           "admin@example.com" "secret"
           (Some {| lo_otp := JStr "123456"; lo_mode := JNull |}) world0).
  - apply sample_readMe_one_request.
  - apply sample_setUser_no_request.
Defined.

(** An instance of [login_readMe_error]: an SDK that authenticates and then
    rejects the request of [readMe]. *)
Lemma login_readMe_error_witness :
  fst (run (sample_setup (login_only_sdk (JNum 900) forbidden))
           (AuthLogin "admin@example.com" "secret" None) world0) = Returned JUndefined
  /\ console_errors
       (trace (snd (run (sample_setup (login_only_sdk (JNum 900) forbidden))
                        (AuthLogin "admin@example.com" "secret" None) world0))) =
     [[JStr "Couldn't login user"; prop forbidden "errors"]].
Proof.
  rewrite (login_readMe_error (sample_setup (login_only_sdk (JNum 900) forbidden))
             "admin@example.com" "secret" None world0
             (emit (SdkCalled (useDirectusRest (Some (JBool false))) (Request sdkReadMe))
                (emit (SdkCalled (useDirectusRest (Some (JBool false)))
                         (Login "admin@example.com" "secret"
                            (Some {| lo_otp := JUndefined; lo_mode := JStr "json" |})))
                      world0))
             (useDirectusRest (Some (JBool false)))
             (Login "admin@example.com" "secret"
                (Some {| lo_otp := JUndefined; lo_mode := JStr "json" |}))
             forbidden eq_refl eq_refl eq_refl eq_refl).
  split; reflexivity.
Defined.

(** ** The read path *)

(** X15.  The key of a read wrapper is fixed when the wrapper is called, the
    request is built when the handler runs: the handler of a call made in
    world [w], run in world [w'], asks for the collection and id that the
    caller's refs hold in [w'], while the key depends on the world only
    through the refs as they were in [w]. *)
Theorem handler_reads_refs_when_run (sdk : Sdk) (hash : JsVal -> string) (ust : JsVal)
        (c : CrudCall) (m : Js AsyncDataCall) (w w' : World) :
  reader sdk hash ust c = Some m ->
  sdk_calls (events_since w' (snd (handler_passed m w w'))) =
  [(useDirectusRest (Some (js_or (per_call_flag c) ust)), Request (forwarded c w'))]
  /\ (forall w2, cells w2 = cells w -> key_passed m w2 = key_passed m w).
Proof.
  intros Hm.
  destruct c; simpl in Hm; try discriminate Hm; injection Hm as <-;
    (split;
     [ unfold handler_passed; unfold_items; simpl; since; reflexivity
     | intros w2 Hc; unfold key_passed; unfold_items; simpl;
       repeat match goal with
              | x : MaybeRef |- _ => destruct x; simpl
              end;
       rewrite ?Hc; reflexivity ]).
Qed.

Lemma handler_reads_refs_when_run_witness :
  sdk_calls
    (events_since (world_with_refs (JStr "pages") (JNum 7))
       (snd (handler_passed
               (UseDirectusItems.readItem (working_sdk JNull) sample_hash JUndefined
                  (Cell 0) (Cell 1) None)
               (world_with_refs (JStr "articles") (JNum 7))
               (world_with_refs (JStr "pages") (JNum 7))))) =
  [(useDirectusRest (Some JUndefined),
    Request (sdkReadItem (JStr "pages") (JNum 7) JUndefined))].
Proof.
  apply (proj1 (handler_reads_refs_when_run (working_sdk JNull) sample_hash JUndefined
                  (ReadItem (Cell 0) (Cell 1) None) _
                  (world_with_refs (JStr "articles") (JNum 7))
                  (world_with_refs (JStr "pages") (JNum 7)) eq_refl)).
Defined.

(** X16.  An [options.key] that is neither null nor undefined is the key of
    all three read wrappers, whatever the collection, id, query and params
    are. *)
Theorem explicit_key_is_used (sdk : Sdk) (hash : JsVal -> string) (ust : JsVal)
        (c : CrudCall) (m : Js AsyncDataCall) (w : World) :
  reader sdk hash ust c = Some m ->
  nullish (explicit_key c) = false ->
  key_passed m w = explicit_key c.
Proof.
  intros Hm Hk.
  destruct c; simpl in Hm; try discriminate Hm; injection Hm as <-;
    simpl in Hk; unfold key_passed; unfold_items; simpl;
    rewrite js_nullish_if, Hk; reflexivity.
Qed.

Lemma explicit_key_is_used_witness :
  key_passed
    (UseDirectusItems.readItems (working_sdk JNull) sample_hash JUndefined
       (Plain (JStr "articles"))
       (Some {| ad_key := JStr "articles-page-2"; ad_query := JUndefined;
                ad_params := JUndefined; ad_useStaticToken := JUndefined |}))
    world0 = JStr "articles-page-2".
Proof.
  apply (explicit_key_is_used (working_sdk JNull) sample_hash JUndefined
           (ReadItems (Plain (JStr "articles"))
              (Some {| ad_key := JStr "articles-page-2"; ad_query := JUndefined;
                       ad_params := JUndefined; ad_useStaticToken := JUndefined |}))
           _ world0 eq_refl eq_refl).
Defined.

(** An instance of [read_handler_throws_raw]: readSingleton on a rejecting
    SDK. *)
Lemma read_handler_throws_raw_witness :
  fst (perform (failing_sdk forbidden) sample_hash JUndefined
               (ReadSingleton (Plain (JStr "settings")) None) world0) = Thrown forbidden
  /\ console_errors
       (events_since world0
          (snd (perform (failing_sdk forbidden) sample_hash JUndefined
                        (ReadSingleton (Plain (JStr "settings")) None) world0))) = [].
Proof.
  apply (read_handler_throws_raw (failing_sdk forbidden) sample_hash JUndefined
           (ReadSingleton (Plain (JStr "settings")) None) world0 forbidden);
    reflexivity.
Defined.

(** ** Operations that leave the session alone *)

(** X18.  The CRUD wrappers, passwordRequest, passwordReset and inviteUser
    never assign the user cell or a token cookie, whatever the SDK
    answers. *)
Theorem non_session_operations_keep_session (s : Setup) (op : Operation) (w : World) :
  session_operation op = false ->
  session (snd (run s op w)) = session w.
Proof.
  intros Hs.
  destruct op as [[]| | | | | | | | | | | ]; simpl in Hs; try discriminate Hs;
    unfold_run; simpl; step_sdk; reflexivity.
Qed.

Lemma non_session_operations_keep_session_witness :
  session (snd (run (sample_setup (working_sdk (JNum 900)))
                    (AuthInviteUser {| iu_email := JStr "new@example.com";
                                       iu_role := JStr "editor";
                                       iu_invite_url := JUndefined;
                                       iu_useStaticToken := JUndefined |})
                    signed_in)) = session signed_in.
Proof.
  apply (non_session_operations_keep_session (sample_setup (working_sdk (JNum 900)))
           (AuthInviteUser {| iu_email := JStr "new@example.com";
                              iu_role := JStr "editor";
                              iu_invite_url := JUndefined;
                              iu_useStaticToken := JUndefined |})
           signed_in).
  reflexivity.
Defined.
